(** * Auto-Analyst: a shallow embedding of the agent pipeline

    Sources: [agents/base_llm.py], [agents/planner.py],
    [agents/researcher.py], [agents/critic.py] and [app.py].

    Python [str] values are modelled as [string] (byte strings); the
    Python [dict] values produced by [json.loads] as association lists in
    insertion order ([obj]); Python exceptions that escape a function as
    [None] in an option/state monad. External collaborators (the Groq
    model, SerpAPI and DuckDuckGo) are fields of a [World] record, indexed
    by a tick that counts external calls, so that each call may answer
    differently. *)

From Stdlib Require Import String Ascii List ZArith Lia Bool.
From Stdlib Require Import DecimalString.
Import ListNotations.
Set Warnings "-register-all".
Open Scope list_scope.
Open Scope string_scope.
Open Scope nat_scope.

(* ------------------------------------------------------------------ *)
(** ** Characters and Python string methods *)

Definition dq : ascii := "034".          (* the double-quote character *)
Definition bslash : ascii := "092".

(** [q s] replaces every ['] of [s] by a double quote; used only to write
    test inputs that contain JSON text. *)
Fixpoint q (s : string) : string :=
  match s with
  | EmptyString => EmptyString
  | String c r => String (if Ascii.eqb c "'" then dq else c) (q r)
  end.

Definition nat_to_string (n : nat) : string :=
  NilEmpty.string_of_uint (Nat.to_uint n).

(** [str.isspace] on ASCII: \t \n \v \f \r, \x1c..\x1f and space. *)
Definition is_space (c : ascii) : bool :=
  let n := nat_of_ascii c in
  ((9 <=? n) && (n <=? 13)) || ((28 <=? n) && (n <=? 32)).

(** [str.lower] on ASCII letters. *)
Definition lower_char (c : ascii) : ascii :=
  let n := nat_of_ascii c in
  if (65 <=? n) && (n <=? 90) then ascii_of_nat (n + 32) else c.

Fixpoint lower (s : string) : string :=
  match s with
  | EmptyString => EmptyString
  | String c r => String (lower_char c) (lower r)
  end.

Fixpoint lstrip (s : string) : string :=
  match s with
  | String c r => if is_space c then lstrip r else s
  | EmptyString => EmptyString
  end.

Fixpoint rev_string (s : string) : string :=
  match s with
  | EmptyString => EmptyString
  | String c r => rev_string r ++ String c EmptyString
  end.

(** [str.strip()] *)
Definition strip (s : string) : string :=
  rev_string (lstrip (rev_string (lstrip s))).

(** [needle in hay] for strings. *)
Fixpoint contains (needle hay : string) : bool :=
  match hay with
  | EmptyString => String.prefix needle hay
  | String _ r => String.prefix needle hay || contains needle r
  end.

(** [str.find(c)] for a one-character argument, as an index. *)
Fixpoint find_char (c : ascii) (s : string) : option nat :=
  match s with
  | EmptyString => None
  | String d r => if Ascii.eqb c d then Some 0 else option_map S (find_char c r)
  end.

(** [str.rfind(c)]. *)
Fixpoint rfind_char (c : ascii) (s : string) : option nat :=
  match s with
  | EmptyString => None
  | String d r =>
      match rfind_char c r with
      | Some j => Some (S j)
      | None => if Ascii.eqb c d then Some 0 else None
      end
  end.

(** Python's [-1] convention for "not found". *)
Definition py_find (c : ascii) (s : string) : Z :=
  match find_char c s with Some n => Z.of_nat n | None => (-1)%Z end.

Definition py_rfind (c : ascii) (s : string) : Z :=
  match rfind_char c s with Some n => Z.of_nat n | None => (-1)%Z end.

(** [s[a:b]] for [0 <= a <= b]. *)
Definition slice (s : string) (a b : Z) : string :=
  substring (Z.to_nat a) (Z.to_nat (b - a)) s.

(** [str.split()] (no argument): split on runs of whitespace. *)
Fixpoint split_aux (cur : string) (s : string) : list string :=
  match s with
  | EmptyString => if String.eqb cur "" then [] else [cur]
  | String c r =>
      if is_space c
      then ((if String.eqb cur "" then [] else [cur]) ++ split_aux "" r)%list
      else split_aux (cur ++ String c EmptyString) r
  end.

Definition py_split (s : string) : list string := split_aux "" s.

(** [sep.join(l)] *)
Fixpoint join (sep : string) (l : list string) : string :=
  match l with
  | [] => ""
  | [x] => x
  | x :: r => x ++ sep ++ join sep r
  end.

(* ------------------------------------------------------------------ *)
(** ** JSON values, [json.loads] and [json.dumps] *)

(** Numbers keep their source text. *)
Inductive json : Type :=
| JNull
| JBool (b : bool)
| JNum (text : string)
| JStr (s : string)
| JArr (l : list json)
| JObj (o : list (string * json)).

(** A Python [dict] with string keys, in insertion order. *)
Definition obj := list (string * json).

Fixpoint lookup (k : string) (o : obj) : option json :=
  match o with
  | [] => None
  | (k', v) :: r => if String.eqb k k' then Some v else lookup k r
  end.

(** [d[k] = v]: replace in place if present, else append. *)
Fixpoint set_key (k : string) (v : json) (o : obj) : obj :=
  match o with
  | [] => [(k, v)]
  | (k', v') :: r => if String.eqb k k' then (k, v) :: r else (k', v') :: set_key k v r
  end.

(** [d.get(k, default)] *)
Definition get_default (k : string) (d : json) (o : obj) : json :=
  match lookup k o with Some v => v | None => d end.

Definition has_key (k : string) (o : obj) : bool :=
  match lookup k o with Some _ => true | None => false end.

(** [dict(pairs)] as built by the JSON decoder: the last value of a
    duplicated key wins, at the position of its first occurrence. *)
Definition obj_of_pairs (ps : list (string * json)) : obj :=
  fold_left (fun o kv => set_key (fst kv) (snd kv) o) ps [].

(** JSON whitespace: space, \t, \n, \r. *)
Definition is_json_ws (c : ascii) : bool :=
  let n := nat_of_ascii c in (n =? 32) || (n =? 9) || (n =? 10) || (n =? 13).

Fixpoint skip_ws (s : string) : string :=
  match s with
  | String c r => if is_json_ws c then skip_ws r else s
  | EmptyString => s
  end.

Definition is_digit (c : ascii) : bool :=
  let n := nat_of_ascii c in (48 <=? n) && (n <=? 57).

Definition hex_val (c : ascii) : option nat :=
  let n := nat_of_ascii c in
  if (48 <=? n) && (n <=? 57) then Some (n - 48)
  else if (97 <=? n) && (n <=? 102) then Some (n - 87)
  else if (65 <=? n) && (n <=? 70) then Some (n - 55)
  else None.

(** UTF-8 bytes of a code point below 0x10000 (a [\uXXXX] escape). *)
Definition utf8_of (n : nat) : string :=
  if n <? 128 then String (ascii_of_nat n) EmptyString
  else if n <? 2048 then
    String (ascii_of_nat (192 + n / 64)) (String (ascii_of_nat (128 + n mod 64)) EmptyString)
  else
    String (ascii_of_nat (224 + n / 4096))
      (String (ascii_of_nat (128 + (n / 64) mod 64))
        (String (ascii_of_nat (128 + n mod 64)) EmptyString)).

Definition simple_escape (e : ascii) : option ascii :=
  let n := nat_of_ascii e in
  if (n =? 34) || (n =? 92) || (n =? 47) then Some e
  else if n =? 98 then Some "008"%char
  else if n =? 102 then Some "012"%char
  else if n =? 110 then Some "010"%char
  else if n =? 114 then Some "013"%char
  else if n =? 116 then Some "009"%char
  else None.

Definition cons_str (c : string) (r : option (string * string)) : option (string * string) :=
  match r with Some (acc, rest) => Some (c ++ acc, rest) | None => None end.

(** String body after the opening quote (strict mode: no raw control
    characters). Returns the decoded text and the remaining input. *)
Fixpoint parse_str_body (s : string) : option (string * string) :=
  match s with
  | EmptyString => None
  | String c r =>
      if Ascii.eqb c dq then Some ("", r)
      else if Ascii.eqb c bslash then
        match r with
        | String "u" (String h1 (String h2 (String h3 (String h4 r')))) =>
            match hex_val h1, hex_val h2, hex_val h3, hex_val h4 with
            | Some a, Some b, Some c', Some d =>
                cons_str (utf8_of (((a * 16 + b) * 16 + c') * 16 + d)) (parse_str_body r')
            | _, _, _, _ => None
            end
        | String e r' =>
            match simple_escape e with
            | Some e' => cons_str (String e' EmptyString) (parse_str_body r')
            | None => None
            end
        | EmptyString => None
        end
      else if nat_of_ascii c <? 32 then None
      else cons_str (String c EmptyString) (parse_str_body r)
  end.

Fixpoint take_digits (s : string) : string * string :=
  match s with
  | String c r =>
      if is_digit c then let (d, rest) := take_digits r in (String c d, rest) else ("", s)
  | EmptyString => ("", "")
  end.

(** The decoder's number pattern [-?(0|[1-9]\d* )(\.\d+)?([eE][-+]?\d+)?]. *)
Definition parse_number (s : string) : option (string * string) :=
  let (sign, s1) := match s with String "-" r => ("-", r) | _ => ("", s) end in
  let intpart :=
    match s1 with
    | String "0" r => Some ("0", r)
    | String c _ => if is_digit c then Some (take_digits s1) else None
    | EmptyString => None
    end in
  match intpart with
  | None => None
  | Some (ip, s2) =>
      let (frac, s3) :=
        match s2 with
        | String "." r =>
            let (d, rest) := take_digits r in
            if String.eqb d "" then ("", s2) else ("." ++ d, rest)
        | _ => ("", s2)
        end in
      let (ex, s4) :=
        match s3 with
        | String e r =>
            if Ascii.eqb e "e" || Ascii.eqb e "E" then
              let (sg, r1) := match r with
                              | String "+" r' => ("+", r') | String "-" r' => ("-", r')
                              | _ => ("", r) end in
              let (d, rest) := take_digits r1 in
              if String.eqb d "" then ("", s3) else (String e (sg ++ d), rest)
            else ("", s3)
        | EmptyString => ("", s3)
        end in
      Some (sign ++ ip ++ frac ++ ex, s4)
  end.

(** Recursive descent over the input, with [fuel] bounding the depth. *)
Fixpoint parse_value (fuel : nat) (s : string) {struct fuel} : option (json * string) :=
  match fuel with
  | O => None
  | S f =>
      match s with
      | EmptyString => None
      | String c r =>
          if Ascii.eqb c dq then
            match parse_str_body r with Some (x, rest) => Some (JStr x, rest) | None => None end
          else if Ascii.eqb c "{" then
            match skip_ws r with
            | String "}" rest => Some (JObj [], rest)
            | r' => match parse_members f r' [] with
                    | Some (ps, rest) => Some (JObj (obj_of_pairs ps), rest)
                    | None => None end
            end
          else if Ascii.eqb c "[" then
            match skip_ws r with
            | String "]" rest => Some (JArr [], rest)
            | r' => match parse_elems f r' [] with
                    | Some (l, rest) => Some (JArr l, rest)
                    | None => None end
            end
          else if String.prefix "true" s then Some (JBool true, substring 4 (String.length s - 4) s)
          else if String.prefix "false" s then Some (JBool false, substring 5 (String.length s - 5) s)
          else if String.prefix "null" s then Some (JNull, substring 4 (String.length s - 4) s)
          else if String.prefix "NaN" s then Some (JNum "NaN", substring 3 (String.length s - 3) s)
          else if String.prefix "Infinity" s then Some (JNum "Infinity", substring 8 (String.length s - 8) s)
          else if String.prefix "-Infinity" s then Some (JNum "-Infinity", substring 9 (String.length s - 9) s)
          else match parse_number s with
               | Some (t, rest) => Some (JNum t, rest)
               | None => None
               end
      end
  end
with parse_elems (fuel : nat) (s : string) (acc : list json) {struct fuel} : option (list json * string) :=
  match fuel with
  | O => None
  | S f =>
      match parse_value f s with
      | None => None
      | Some (v, rest) =>
          match skip_ws rest with
          | String "," r => parse_elems f (skip_ws r) (acc ++ [v])%list
          | String "]" r => Some ((acc ++ [v])%list, r)
          | _ => None
          end
      end
  end
with parse_members (fuel : nat) (s : string) (acc : list (string * json)) {struct fuel}
  : option (list (string * json) * string) :=
  match fuel with
  | O => None
  | S f =>
      match s with
      | String c r =>
          if Ascii.eqb c dq then
            match parse_str_body r with
            | None => None
            | Some (k, r1) =>
                match skip_ws r1 with
                | String ":" r2 =>
                    match parse_value f (skip_ws r2) with
                    | None => None
                    | Some (v, r3) =>
                        match skip_ws r3 with
                        | String "," r4 => parse_members f (skip_ws r4) (acc ++ [(k, v)])%list
                        | String "}" r4 => Some ((acc ++ [(k, v)])%list, r4)
                        | _ => None
                        end
                    end
                | _ => None
                end
            end
          else None
      | EmptyString => None
      end
  end.

(** [json.loads(s)]: [None] where it raises [JSONDecodeError]. *)
Definition loads (s : string) : option json :=
  match parse_value (String.length s + 2) (skip_ws s) with
  | Some (v, rest) => if String.eqb (skip_ws rest) "" then Some v else None
  | None => None
  end.

Definition hex_digit (n : nat) : ascii :=
  if n <? 10 then ascii_of_nat (48 + n) else ascii_of_nat (87 + n).

(** String escaping of [json.dumps] (ensure_ascii: everything outside
    the printable ASCII range is escaped as \u00XX). *)
Fixpoint escape_str (s : string) : string :=
  match s with
  | EmptyString => EmptyString
  | String c r =>
      let n := nat_of_ascii c in
      (if (n =? 34) || (n =? 92) then String bslash (String c EmptyString)
       else if n =? 10 then String bslash "n"
       else if n =? 13 then String bslash "r"
       else if n =? 9 then String bslash "t"
       else if n =? 8 then String bslash "b"
       else if n =? 12 then String bslash "f"
       else if (n <? 32) || (126 <? n) then
         String bslash (String "u" (String "0" (String "0"
           (String (hex_digit (n / 16)) (String (hex_digit (n mod 16)) EmptyString)))))
       else String c EmptyString) ++ escape_str r
  end.

Definition quote (s : string) : string :=
  String dq (escape_str s ++ String dq EmptyString).

(** [json.dumps(v)] with the default separators [", "] and [": "]. *)
Fixpoint dumps (j : json) : string :=
  match j with
  | JNull => "null"
  | JBool true => "true"
  | JBool false => "false"
  | JNum t => t
  | JStr s => quote s
  | JArr l => "[" ++ join ", " (map dumps l) ++ "]"
  | JObj o => "{" ++ join ", " (map (fun kv => quote (fst kv) ++ ": " ++ dumps (snd kv)) o) ++ "}"
  end.

Example loads_obj :
  loads (q "{'a': [1, 2.5e3, true], 'b': null}")
  = Some (JObj [("a", JArr [JNum "1"; JNum "2.5e3"; JBool true]); ("b", JNull)]).
Proof. vm_compute. reflexivity. Qed.

Example loads_trailing : loads (q "{'a':1} x") = None.
Proof. vm_compute. reflexivity. Qed.

(** [str(v)] of a decoded JSON value, as used by f-strings (the quoting
    of nested strings follows [repr] without its escape rules). *)
Fixpoint py_repr (j : json) : string :=
  match j with
  | JNull => "None"
  | JBool true => "True"
  | JBool false => "False"
  | JNum t => t
  | JStr s => "'" ++ s ++ "'"
  | JArr l => "[" ++ join ", " (map py_repr l) ++ "]"
  | JObj o => "{" ++ join ", " (map (fun kv => "'" ++ fst kv ++ "': " ++ py_repr (snd kv)) o) ++ "}"
  end.

Definition py_str (j : json) : string :=
  match j with JStr s => s | _ => py_repr j end.

(* ------------------------------------------------------------------ *)
(** ** External collaborators *)

(** [self.llm.invoke(prompt)]: the message content, or the exception. *)
Inductive llm_result : Type :=
| LLMOk (content : string)
| LLMExc (msg : string).

(** A search hit [{"title", "snippet", "url"}]. *)
Record hit : Type := mk_hit { title : string; snippet : string; url : string }.

(** [GoogleSearch(params).get_dict()]: the ["organic_results"] entry if
    the key is present (already mapped through [item.get(.., "")]). *)
Inductive serp_outcome : Type :=
| SerpOk (organic : option (list hit))
| SerpExc (msg : string).

(** [DDGS().text(query, max_results=..)], fully consumed. *)
Inductive ddg_outcome : Type :=
| DdgOk (results : list hit)
| DdgExc (msg : string).

(** The environment; every external call reads the current tick. *)
Record World : Type := mk_world {
  llm : nat -> string -> llm_result;
  serp_api_key : option string;
  serp : nat -> string -> nat -> serp_outcome;
  ddg : nat -> string -> nat -> ddg_outcome
}.

(** State (the tick) and escaping exceptions ([None]). *)
Definition M (A : Type) : Type := nat -> option (A * nat).

Definition ret {A} (a : A) : M A := fun t => Some (a, t).

Definition bind {A B} (m : M A) (f : A -> M B) : M B :=
  fun t => match m t with Some (a, t') => f a t' | None => None end.

Definition lift_opt {A} (o : option A) : M A :=
  fun t => match o with Some a => Some (a, t) | None => None end.

Notation "x <- m ;; k" := (bind m (fun x => k))
  (at level 61, m at next level, right associativity).

Definition hit_json (h : hit) : json :=
  JObj [("title", JStr (title h)); ("snippet", JStr (snippet h)); ("url", JStr (url h))].

Definition hits_json (hs : list hit) : json := JArr (map hit_json hs).

(* ------------------------------------------------------------------ *)
(** ** Shared extraction logic *)

(** [_extract_json] of every agent: the span from the first ['{'] to the
    last ['}'], else [json.dumps] of the agent's own [canned] record. *)
Definition extract_json (canned : json) (text : string) : string :=
  let start := py_find "{" text in
  let end_ := (py_rfind "}" text + 1)%Z in
  if (0 <=? start)%Z && (start <? end_)%Z then slice text start end_
  else dumps canned.

(* ------------------------------------------------------------------ *)
(** ** Planner ([agents/planner.py]) *)

(** The canned record of [TaskPlanner._extract_json]. *)
Definition plan_parse_failure_obj : obj :=
  [("problem", JStr "Parsing failed");
        ("subtasks", JArr [JObj [("id", JNum "1"); ("task", JStr "Handle parsing error");
                                 ("agent", JStr "system"); ("tools", JArr []);
                                 ("expected_output", JStr "Error message")]]);
        ("rationale", JStr "JSON parsing failed from LLM response")].

Definition plan_parse_failure : json := JObj plan_parse_failure_obj.

(** [TaskPlanner._validate_plan]: [inl msg] where it raises. A non-dict
    value raises as well (its key test or its subscript fails). *)
Definition validate_plan (plan : json) : string + unit :=
  match plan with
  | JObj o =>
      match find (fun k => negb (has_key k o)) ["problem"; "subtasks"; "rationale"] with
      | Some k => inl ("Missing required key in plan: " ++ k)
      | None =>
          match lookup "subtasks" o with
          | Some (JArr _) => inr tt
          | _ => inl "Subtasks must be a list"
          end
      end
  | _ => inl "TypeError"
  end.

(** [TaskPlanner._create_default_plan]. *)
Definition default_plan (problem : string) : json :=
  JObj [("problem", JStr problem);
        ("subtasks", JArr [
           JObj [("id", JNum "1"); ("task", JStr "Research and gather information about the problem");
                 ("agent", JStr "researcher"); ("tools", JArr [JStr "web_search"]);
                 ("expected_output", JStr "Collection of relevant information and sources")];
           JObj [("id", JNum "2"); ("task", JStr "Analyze the gathered information");
                 ("agent", JStr "analyst"); ("tools", JArr []);
                 ("expected_output", JStr "Analysis of pros, cons, and insights")];
           JObj [("id", JNum "3"); ("task", JStr "Validate the analysis and provide recommendations");
                 ("agent", JStr "critic"); ("tools", JArr []);
                 ("expected_output", JStr "Validated insights and actionable recommendations")]]);
        ("rationale", JStr "Default three-step research pipeline")].

(** [self.planning_prompt.format(problem=problem)] (instructions abridged). *)
Definition planning_prompt (problem : string) : string :=
  "You are an expert task planner. Your job is to break down complex problems into clear, actionable subtasks.

USER PROBLEM: " ++ problem ++ "

INSTRUCTIONS: (...)

OUTPUT ONLY VALID JSON:".

(** The body of the [try] of [create_plan], after the model call. *)
Definition plan_of_response (problem response : string) : json :=
  match loads (extract_json plan_parse_failure response) with
  | Some plan =>
      match validate_plan plan with
      | inr _ => plan
      | inl _ => default_plan problem
      end
  | None => default_plan problem
  end.

(* ------------------------------------------------------------------ *)
(** ** Researcher ([agents/researcher.py]), pure parts *)

(** [ResearchAgent._optimize_query]. *)
Definition optimize_query (query : string) : string :=
  let query_lower := lower (strip query) in
  if negb (contains "2024" query_lower) && negb (contains "2023" query_lower)
  then query ++ " 2024"
  else query.

(** Lines 84-87 of [search_web]: the query sent to SerpAPI. *)
Definition serp_query (query : string) : string :=
  let optimized_query := optimize_query query in
  if 15 <? List.length (py_split optimized_query)
  then join " " (firstn 12 (py_split optimized_query))
  else optimized_query.

Fixpoint format_lines (i : nat) (results : list hit) : list string :=
  match results with
  | [] => []
  | r :: rs =>
      app ["RESULT " ++ nat_to_string i ++ ":"; "Title: " ++ title r;
           "Snippet: " ++ substring 0 300 (snippet r) ++ "..."; "URL: " ++ url r; "---"]
          (format_lines (S i) rs)
  end.

(** [ResearchAgent.format_search_results]. *)
Definition format_search_results (results : list hit) : string :=
  join (String "010" EmptyString) (format_lines 1 results).

(** [self.research_prompt.format(...)] (instructions abridged). *)
Definition research_prompt (topic search_results : string) : string :=
  "You are an expert research analyst. Analyze the provided search results and create a comprehensive summary.

RESEARCH TOPIC: " ++ topic ++ "

SEARCH RESULTS:
" ++ search_results ++ "

INSTRUCTIONS: (...)

OUTPUT ONLY VALID JSON:".

(** The canned record of [ResearchAgent._extract_json]. *)
Definition research_parse_failure_obj : obj :=
  [("topic", JStr "JSON extraction failed");
        ("summary", JStr "Could not parse LLM response");
        ("key_findings", JArr []); ("statistics", JArr []); ("sources", JArr []);
        ("gaps", JArr [JStr "Could not parse analysis"]);
        ("next_steps", JArr [JStr "Retry research"])].

Definition research_parse_failure : json := JObj research_parse_failure_obj.

(** [ResearchAgent._create_empty_research]. *)
Definition empty_research (topic : string) : obj :=
  [("topic", JStr topic); ("summary", JStr "No search results found");
   ("key_findings", JArr []); ("statistics", JArr []); ("sources", JArr []);
   ("gaps", JArr [JStr "No information available from search"]);
   ("next_steps", JArr [JStr "Try different search terms"; JStr "Check internet connection"]);
   ("raw_results", JArr [])].

(** [ResearchAgent._create_basic_research]. *)
Definition basic_research (topic : string) (search_results : list hit) : obj :=
  [("topic", JStr topic);
   ("summary", JStr ("Found " ++ nat_to_string (List.length search_results) ++ " results but analysis failed"));
   ("key_findings", JArr [JObj [("category", JStr "Raw Search Results");
                                ("points", JArr (map (fun r => JStr (substring 0 100 (title r) ++ "..."))
                                                     (firstn 3 search_results)))]]);
   ("statistics", JArr [JStr ("Total results: " ++ nat_to_string (List.length search_results))]);
   ("sources", JArr (map (fun r => JObj [("title", JStr (title r)); ("url", JStr (url r));
                                         ("credibility", JStr "unknown")])
                         (firstn 3 search_results)));
   ("gaps", JArr [JStr "LLM analysis unavailable"]);
   ("next_steps", JArr [JStr "Manual analysis required"]);
   ("raw_results", hits_json search_results)].

(** The body of the [try] of [research_topic], after the model call:
    item assignment on a decoded non-dict raises and is caught too. *)
Definition research_of_response (topic : string) (search_results : list hit) (response : string) : obj :=
  match loads (extract_json research_parse_failure response) with
  | Some (JObj research) => set_key "raw_results" (hits_json search_results) research
  | _ => basic_research topic search_results
  end.

Definition obind {A B} (o : option A) (f : A -> option B) : option B :=
  match o with Some a => f a | None => None end.

Notation "x <-? o ;; k" := (obind o (fun x => k))
  (at level 61, o at next level, right associativity).

Fixpoint omap {A B} (f : A -> option B) (l : list A) : option (list B) :=
  match l with
  | [] => Some []
  | x :: r => y <-? f x;; ys <-? omap f r;; Some (y :: ys)
  end.

Section Agents.
Variable w : World.

(** [BaseLLM.generate]: an exception becomes an error text. *)
Definition generate (prompt : string) : M string :=
  fun t => Some (match llm w t prompt with
                 | LLMOk c => c
                 | LLMExc e => "Error generating response: " ++ e
                 end, S t).

(** [TaskPlanner.create_plan]. *)
Definition create_plan (problem : string) : M json :=
  response <- generate (planning_prompt problem);;
  ret (plan_of_response problem response).

(** [ResearchAgent._fallback_search] (DuckDuckGo). *)
Definition fallback_search (query : string) (max_results : nat) : M (list hit) :=
  fun t => Some (match ddg w t query max_results with
                 | DdgOk l => l
                 | DdgExc _ => []
                 end, S t).

(** [ResearchAgent.search_web]. *)
Definition search_web (query : string) (max_results : nat) : M (list hit) :=
  match serp_api_key w with
  | None | Some EmptyString => fallback_search query max_results
  | Some _ =>
      let optimized_query := serp_query query in
      fun t =>
        match serp w t optimized_query max_results with
        | SerpOk (Some items) => Some (firstn max_results items, S t)
        | SerpOk None => Some ([], S t)
        | SerpExc _ => fallback_search query max_results (S t)
        end
  end.

(** [query = search_query or topic]. *)
Definition research_query (topic : string) (search_query : option string) : string :=
  match search_query with
  | Some s => if String.eqb s "" then topic else s
  | None => topic
  end.

(** [ResearchAgent.research_topic]. *)
Definition research_topic (topic : string) (search_query : option string) : M obj :=
  let query := research_query topic search_query in
  search_results <- search_web query 5;;
  match search_results with
  | [] => ret (empty_research topic)
  | _ =>
      response <- generate (research_prompt topic (format_search_results search_results));;
      ret (research_of_response topic search_results response)
  end.

(* ------------------------------------------------------------------ *)
(** ** Critic ([agents/critic.py]) *)

Definition mantissa_nonzero (t : string) : bool :=
  (fix go (s : string) : bool :=
     match s with
     | EmptyString => false
     | String c r =>
         if Ascii.eqb c "e" || Ascii.eqb c "E" then false
         else (is_digit c && negb (Ascii.eqb c "0")) || go r
     end) t.

(** Python truthiness of a decoded value. *)
Definition py_truthy (j : json) : bool :=
  match j with
  | JNull => false
  | JBool b => b
  | JNum t => mantissa_nonzero t || contains "NaN" t || contains "Infinity" t
  | JStr s => negb (String.eqb s "")
  | JArr l => negb (List.length l =? 0)
  | JObj o => negb (List.length o =? 0)
  end.

(** [for x in v]: lists, characters of a string, keys of a dict;
    anything else raises [TypeError]. *)
Definition py_iter (j : json) : option (list json) :=
  match j with
  | JArr l => Some l
  | JStr s => Some (map (fun c => JStr (String c EmptyString)) (list_ascii_of_string s))
  | JObj o => Some (map (fun kv => JStr (fst kv)) o)
  | _ => None
  end.

(** [v[:n]]: lists and strings; a dict or a scalar raises. *)
Definition py_slice (j : json) (n : nat) : option json :=
  match j with
  | JArr l => Some (JArr (firstn n l))
  | JStr s => Some (JStr (substring 0 n s))
  | _ => None
  end.

(** [v[k]] with a string key: only a dict has it, else it raises. *)
Definition py_getitem (j : json) (k : string) : option json :=
  match j with JObj o => lookup k o | _ => None end.

(** [v.get(k, d)]: only a dict has [.get]. *)
Definition py_get (j : json) (k : string) (d : json) : option json :=
  match j with JObj o => Some (get_default k d o) | _ => None end.

(** [CriticAgent._prepare_findings_summary]; [None] where it raises
    (the bullet glyph of the source is written [-] here). *)
Definition prepare_findings_summary (research : obj) : option string :=
  let part1 := ["SUMMARY: " ++ py_str (get_default "summary" (JStr "No summary") research)] in
  kf <-? (if py_truthy (get_default "key_findings" JNull research) then
            findings <-? py_iter (get_default "key_findings" JNull research);;
            ls <-? omap (fun finding =>
                      cat <-? py_getitem finding "category";;
                      pts <-? py_get finding "points" (JArr []);;
                      sl <-? py_slice pts 3;;
                      it <-? py_iter sl;;
                      Some (("- " ++ py_str cat ++ ":") :: map (fun p => "  - " ++ py_str p) it))
                    findings;;
            Some ((String "010" "KEY FINDINGS:") :: concat ls)
          else Some []);;
  st <-? (if py_truthy (get_default "statistics" JNull research) then
            sl <-? py_slice (get_default "statistics" JNull research) 5;;
            it <-? py_iter sl;;
            Some ((String "010" "STATISTICS:") :: map (fun x => "- " ++ py_str x) it)
          else Some []);;
  so <-? (if py_truthy (get_default "sources" JNull research) then
            sl <-? py_slice (get_default "sources" JNull research) 3;;
            it <-? py_iter sl;;
            ls <-? omap (fun source =>
                      ti <-? py_get source "title" (JStr "No title");;
                      cr <-? py_get source "credibility" (JStr "unknown");;
                      Some ("- " ++ py_str ti ++ " (" ++ py_str cr ++ ")")) it;;
            Some ((String "010" "SOURCES:") :: ls)
          else Some []);;
  ga <-? (if py_truthy (get_default "gaps" JNull research) then
            sl <-? py_slice (get_default "gaps" JNull research) 3;;
            it <-? py_iter sl;;
            Some ((String "010" "IDENTIFIED GAPS:") :: map (fun x => "- " ++ py_str x) it)
          else Some []);;
  Some (join (String "010" EmptyString) (part1 ++ kf ++ st ++ so ++ ga)%list).

(** [self.critique_prompt.format(...)] (instructions abridged). *)
Definition critique_prompt (topic findings : string) : string :=
  "You are an expert critical analyst. Your job is to validate, critique, and improve research findings.

RESEARCH TOPIC: " ++ topic ++ "

RESEARCH FINDINGS:
" ++ findings ++ "

INSTRUCTIONS: (...)

OUTPUT ONLY VALID JSON:".

Definition jstrs (l : list string) : json := JArr (map JStr l).

(** The canned record of [CriticAgent._extract_json]. *)
Definition critic_parse_failure_obj : obj :=
  [("topic", JStr "JSON extraction failed");
        ("validation", JObj [("completeness_score", JNum "5"); ("accuracy_score", JNum "5");
                             ("source_credibility_score", JNum "5");
                             ("biases_identified", jstrs ["Could not parse critique"]);
                             ("assumptions", jstrs ["Parsing failed"])]);
        ("critique", JObj [("strengths", jstrs ["Critique system operational"]);
                           ("weaknesses", jstrs ["Could not generate proper critique"]);
                           ("logical_issues", jstrs ["Parsing error"]);
                           ("missing_perspectives", jstrs ["Full critique unavailable"])]);
        ("improvements", JArr [JObj [("area", JStr "Critique system");
                                     ("suggestion", JStr "Retry critique generation");
                                     ("priority", JStr "high")]]);
        ("overall_quality", JNum "5"); ("confidence_level", JStr "low");
        ("recommendation", JStr "Manual review required")].

Definition critic_parse_failure : json := JObj critic_parse_failure_obj.

(** [CriticAgent._create_default_critique]. *)
Definition default_critique (research : obj) : obj :=
  [("topic", get_default "topic" (JStr "Unknown") research);
   ("research_topic", get_default "topic" (JStr "") research);
   ("original_research_summary", get_default "summary" (JStr "") research);
   ("validation", JObj [("completeness_score", JNum "5"); ("accuracy_score", JNum "5");
                        ("source_credibility_score", JNum "5");
                        ("biases_identified", jstrs ["Unknown due to critique failure"]);
                        ("assumptions", jstrs ["Default critique generated"])]);
   ("critique", JObj [("strengths", jstrs ["Research was conducted"; "Findings were documented"]);
                      ("weaknesses", jstrs ["Critique system failed"; "Limited validation"]);
                      ("logical_issues", jstrs ["Unable to assess"]);
                      ("missing_perspectives", jstrs ["Full critique unavailable"])]);
   ("improvements", JArr [JObj [("area", JStr "Critique System");
                                ("suggestion", JStr "Fix critique generation or use manual review");
                                ("priority", JStr "high")]]);
   ("overall_quality", JNum "5"); ("confidence_level", JStr "low");
   ("recommendation", JStr "Use with caution and manual verification")].

(** The body of the [try] of [critique_research], after the model call. *)
Definition critique_of_response (research : obj) (response : string) : obj :=
  match loads (extract_json critic_parse_failure response) with
  | Some (JObj critique) =>
      set_key "original_research_summary" (get_default "summary" (JStr "") research)
        (set_key "research_topic" (get_default "topic" (JStr "") research) critique)
  | _ => default_critique research
  end.

(** [CriticAgent.critique_research]: the findings summary is prepared
    outside the [try], so an exception there escapes. *)
Definition critique_research (research : obj) : M obj :=
  findings_summary <- lift_opt (prepare_findings_summary research);;
  response <- generate (critique_prompt (py_str (get_default "topic" (JStr "Unknown topic") research))
                                        findings_summary);;
  ret (critique_of_response research response).

(* ------------------------------------------------------------------ *)
(** ** The display methods called by [analyze]

    They only print; what matters here is where they raise ([None]).
    Formatting a value in an f-string never raises. *)

(** [for x in v: body(x)]. *)
Definition py_for (v : json) (body : json -> option unit) : option unit :=
  xs <-? py_iter v;; _ <-? omap body xs;; Some tt.

(** [len(v)]: lists, strings and dicts; anything else raises. *)
Definition py_len (v : json) : option nat :=
  match v with
  | JArr l => Some (List.length l)
  | JStr s => Some (String.length s)
  | JObj o => Some (List.length o)
  | _ => None
  end.

(** [v.upper()]: only a string has it. *)
Definition py_upper (v : json) : option unit :=
  match v with JStr _ => Some tt | _ => None end.

(** [ResearchAgent.display_research]. *)
Definition display_research (research : obj) : option unit :=
  _ <-? lookup "topic" research;;
  _ <-? lookup "summary" research;;
  key_findings <-? lookup "key_findings" research;;
  _ <-? (if py_truthy key_findings then
           py_for key_findings (fun finding =>
             _ <-? py_getitem finding "category";;
             points <-? py_getitem finding "points";;
             py_for points (fun _ => Some tt))
         else Some tt);;
  statistics <-? lookup "statistics" research;;
  _ <-? (if py_truthy statistics then py_for statistics (fun _ => Some tt) else Some tt);;
  sources <-? lookup "sources" research;;
  _ <-? (if py_truthy sources then
           _ <-? py_len sources;;
           first3 <-? py_slice sources 3;;
           py_for first3 (fun source =>
             title <-? py_getitem source "title";;
             _ <-? py_slice title 80;;
             _ <-? py_getitem source "credibility";;
             Some tt)
         else Some tt);;
  gaps <-? lookup "gaps" research;;
  _ <-? (if py_truthy gaps then py_for gaps (fun _ => Some tt) else Some tt);;
  next_steps <-? lookup "next_steps" research;;
  _ <-? (if py_truthy next_steps then py_for next_steps (fun _ => Some tt) else Some tt);;
  _ <-? py_len (get_default "raw_results" (JArr []) research);;
  Some tt.

(** [if v.get(k): for x in v[k][:3]: print(..)] (when [v.get(k)] is
    truthy, [v[k]] is that same value). *)
Definition display_first3 (v : json) (k : string) : option unit :=
  x <-? py_get v k JNull;;
  if py_truthy x then (first3 <-? py_slice x 3;; py_for first3 (fun _ => Some tt))
  else Some tt.

(** [CriticAgent.display_critique]. *)
Definition display_critique (critique : obj) : option unit :=
  let validation := get_default "validation" (JObj []) critique in
  _ <-? (if py_truthy validation then
           _ <-? py_get validation "completeness_score" (JStr "N/A");;
           _ <-? py_get validation "accuracy_score" (JStr "N/A");;
           _ <-? py_get validation "source_credibility_score" (JStr "N/A");;
           _ <-? display_first3 validation "biases_identified";;
           display_first3 validation "assumptions"
         else Some tt);;
  let critique_details := get_default "critique" (JObj []) critique in
  _ <-? (if py_truthy critique_details then
           _ <-? display_first3 critique_details "strengths";;
           _ <-? display_first3 critique_details "weaknesses";;
           _ <-? display_first3 critique_details "logical_issues";;
           display_first3 critique_details "missing_perspectives"
         else Some tt);;
  let improvements := get_default "improvements" (JArr []) critique in
  _ <-? (if py_truthy improvements then
           first3 <-? py_slice improvements 3;;
           py_for first3 (fun improvement =>
             priority <-? py_get improvement "priority" (JStr "medium");;
             _ <-? py_upper priority;;
             _ <-? py_get improvement "area" JNull;;
             _ <-? py_get improvement "suggestion" (JStr "No suggestion");;
             Some tt)
         else Some tt);;
  _ <-? py_upper (get_default "confidence_level" (JStr "unknown") critique);;
  Some tt.

(* ------------------------------------------------------------------ *)
(** ** Orchestrator ([app.py], [AutoAnalyst.analyze], steps 2 and 3) *)

(** A plan subtask, as [analyze] reads it. *)
Record Subtask : Type := mk_subtask { st_id : json; st_task : string; st_agent : string }.

Record ResearchItem : Type := mk_research_item {
  ri_task_id : json; ri_task_description : string; ri_research : obj }.

Record CritiqueItem : Type := mk_critique_item { ci_task_id : json; ci_critique : obj }.

Definition research_agent (agent : string) : bool :=
  existsb (String.eqb agent) ["researcher"; "analyst"; "data_scientist"].

(** Step 2: [for task in plan["subtasks"]: if task["agent"] in [...]: ...],
    each research displayed with [display_research] before it is kept. *)
Fixpoint research_loop (tasks : list Subtask) : M (list ResearchItem) :=
  match tasks with
  | [] => ret []
  | task :: rest =>
      if research_agent (st_agent task) then
        research <- research_topic (st_task task) None;;
        _ <- lift_opt (display_research research);;
        items <- research_loop rest;;
        ret (mk_research_item (st_id task) (st_task task) research :: items)
      else research_loop rest
  end.

(** Step 3: one critique per research item, each displayed with
    [display_critique] before it is kept. *)
Fixpoint critique_loop (items : list ResearchItem) : M (list CritiqueItem) :=
  match items with
  | [] => ret []
  | item :: rest =>
      critique <- critique_research (ri_research item);;
      _ <- lift_opt (display_critique critique);;
      cs <- critique_loop rest;;
      ret (mk_critique_item (ri_task_id item) critique :: cs)
  end.

Definition run_subtasks (tasks : list Subtask) : M (list ResearchItem * list CritiqueItem) :=
  all_research <- research_loop tasks;;
  all_critiques <- critique_loop all_research;;
  ret (all_research, all_critiques).

End Agents.

(* ------------------------------------------------------------------ *)
(** ** Report assembly ([app.py]) *)

Definition mentions_recommend (task : string) : bool :=
  contains "recommend" (lower task) || contains "suggest" (lower task).

Definition default_recommendations : list string :=
  ["Conduct more targeted market research";
   "Validate findings with industry experts";
   "Analyze competitor offerings in detail";
   "Assess technical feasibility and costs";
   "Develop a minimum viable product (MVP) strategy"].

Definition consider_line (task : Subtask) : string := "Consider: " ++ st_task task.

Definition critique_recommendation_line (item : CritiqueItem) : string :=
  "Task " ++ py_str (ci_task_id item) ++ ": "
  ++ py_str (get_default "recommendation" JNull (ci_critique item)).

Definition has_recommendation (item : CritiqueItem) : bool :=
  has_key "recommendation" (ci_critique item).

(** [AutoAnalyst._generate_recommendations] ([research_items] is unused). *)
Definition generate_recommendations (subtasks : list Subtask) (critiques : list CritiqueItem)
  : list string :=
  let recommendations :=
    fold_left (fun acc task =>
                 if mentions_recommend (st_task task) then (acc ++ [consider_line task])%list else acc)
              subtasks [] in
  let recommendations :=
    fold_left (fun acc item =>
                 if has_recommendation item then (acc ++ [critique_recommendation_line item])%list
                 else acc)
              critiques recommendations in
  let recommendations :=
    match recommendations with [] => default_recommendations | _ => recommendations end in
  firstn 5 recommendations.

(** The [top_recommendation] field of [_generate_final_report]. *)
Definition top_recommendation (recommendations : list string) : string :=
  match recommendations with r :: _ => r | [] => "No clear recommendation" end.

Definition default_next_steps : list string :=
  ["Expand search to academic databases"; "Conduct expert interviews";
   "Analyze regional market data"; "Validate with user surveys"].

Definition is_high (j : json) : bool :=
  match j with JStr s => String.eqb s "high" | _ => false end.

(** The inner loop [for imp in improvements[:2]] of one critique. *)
Definition next_steps_of (critique : obj) : option (list string) :=
  sl <-? py_slice (get_default "improvements" (JArr []) critique) 2;;
  imps <-? py_iter sl;;
  ls <-? omap (fun imp =>
                pr <-? py_get imp "priority" JNull;;
                if is_high pr then
                  sug <-? py_get imp "suggestion" (JStr "");;
                  Some ["High priority: " ++ py_str sug]
                else Some []) imps;;
  Some (concat ls).

(** [AutoAnalyst._generate_next_steps]; [None] where it raises. *)
Definition generate_next_steps (critiques : list CritiqueItem) : option (list string) :=
  next_steps <-? fold_left (fun acc item =>
                              steps <-? acc;;
                              more <-? next_steps_of (ci_critique item);;
                              Some (steps ++ more)%list)
                           critiques (Some []);;
  let next_steps := match next_steps with [] => default_next_steps | _ => next_steps end in
  Some (firstn 5 next_steps).

(** One line of [_extract_key_insights]:
    [f"Task {item['task_id']}: {research['summary'][:150]}..."]. *)
Definition insight_line (item : ResearchItem) (summary : json) : string :=
  "Task " ++ py_str (ri_task_id item) ++ ": " ++ py_str summary ++ "...".

(** [AutoAnalyst._extract_key_insights]; [None] where it raises (a
    summary that cannot be sliced). *)
Definition extract_key_insights (research_items : list ResearchItem) : option (list string) :=
  insights <-? fold_left (fun acc item =>
                            ins <-? acc;;
                            let research := ri_research item in
                            if has_key "summary" research then
                              sl <-? py_slice (get_default "summary" JNull research) 150;;
                              Some (ins ++ [insight_line item sl])%list
                            else Some ins)
                         research_items (Some []);;
  Some (firstn 5 insights).

(** The [combined_research] record of [_generate_final_report]:
    [list.extend] iterates the value (a list, the characters of a string,
    the keys of a dict) and raises on anything else. *)
Definition combine_research (problem : string) (research_items : list ResearchItem) : option obj :=
  acc <-? fold_left (fun acc item =>
                       p <-? acc;;
                       let research := ri_research item in
                       kf <-? (if has_key "key_findings" research then
                                 it <-? py_iter (get_default "key_findings" JNull research);;
                                 Some (fst p ++ it)%list
                               else Some (fst p));;
                       src <-? (if has_key "sources" research then
                                  it <-? py_iter (get_default "sources" JNull research);;
                                  Some (snd p ++ it)%list
                                else Some (snd p));;
                       Some (kf, src))
                    research_items (Some ([], []));;
  Some [("topic", JStr ("Comprehensive analysis: " ++ problem));
        ("summary", JStr ("Analysis combining " ++ nat_to_string (List.length research_items)
                          ++ " research tasks"));
        ("key_findings", JArr (fst acc)); ("sources", JArr (snd acc))].

(** [str.replace(old, new)] for a one-character [old]. *)
Fixpoint replace_char (old : ascii) (new : string) (s : string) : string :=
  match s with
  | EmptyString => EmptyString
  | String c r => (if Ascii.eqb c old then new else String c EmptyString) ++ replace_char old new r
  end.

(** [safe_problem] of [_save_analysis]:
    [problem[:50].replace(" ", "_").replace("?", "").replace(".", "")]. *)
Definition safe_problem (problem : string) : string :=
  replace_char "." "" (replace_char "?" "" (replace_char " " "_" (substring 0 50 problem))).

(** The name of each JSON file written by [_save_analysis]. *)
Definition output_filename (timestamp problem name : string) : string :=
  "outputs/" ++ timestamp ++ "_" ++ safe_problem problem ++ "_" ++ name ++ ".json".

(* ------------------------------------------------------------------ *)
(** ** Concrete environments *)

(** Every collaborator fails: the model raises, no SerpAPI key, and
    DuckDuckGo raises. *)
Definition offline_world : World :=
  mk_world (fun _ _ => LLMExc "Connection error.") None
           (fun _ _ _ => SerpExc "unused") (fun _ _ _ => DdgExc "Ratelimit").

(** The model always answers [response]; DuckDuckGo returns [hits]. *)
Definition scripted_world (response : string) (hits : list hit) : World :=
  mk_world (fun _ _ => LLMOk response) None
           (fun _ _ _ => SerpExc "unused") (fun _ _ _ => DdgOk hits).

Definition sample_hit : hit := mk_hit "Rankings" "A snippet" "https://example.com".

(* ------------------------------------------------------------------ *)
(** * Properties *)

(** ** Facts about the string functions *)

Lemma string_app_assoc (a b c : string) : (a ++ b) ++ c = a ++ (b ++ c).
Proof. induction a as [|x a IH]; simpl; [reflexivity | now rewrite IH]. Qed.

Lemma string_length_app (a b : string) : String.length (a ++ b) = String.length a + String.length b.
Proof. induction a as [|x a IH]; simpl; [reflexivity | now rewrite IH]. Qed.

Lemma find_char_app_notin (c : ascii) (a s : string) :
  ~ In c (list_ascii_of_string a) ->
  find_char c (a ++ s) = option_map (Nat.add (String.length a)) (find_char c s).
Proof.
  induction a as [|x a IH]; intros Hn; simpl.
  - destruct (find_char c s); reflexivity.
  - simpl in Hn. destruct (Ascii.eqb_spec c x) as [->|Hne].
    + exfalso. apply Hn. now left.
    + rewrite IH by (intros H; apply Hn; now right).
      destruct (find_char c s); reflexivity.
Qed.

Lemma find_char_notin (c : ascii) (s : string) :
  ~ In c (list_ascii_of_string s) -> find_char c s = None.
Proof.
  induction s as [|x s IH]; intros Hn; simpl; [reflexivity|].
  simpl in Hn. destruct (Ascii.eqb_spec c x) as [->|Hne].
  - exfalso. apply Hn. now left.
  - rewrite IH by (intros H; apply Hn; now right). reflexivity.
Qed.

Lemma rfind_char_notin (c : ascii) (s : string) :
  ~ In c (list_ascii_of_string s) -> rfind_char c s = None.
Proof.
  induction s as [|x s IH]; intros Hn; simpl; [reflexivity|].
  simpl in Hn. rewrite IH by (intros H; apply Hn; now right).
  destruct (Ascii.eqb_spec c x) as [->|Hne]; [exfalso; apply Hn; now left | reflexivity].
Qed.

Lemma rfind_char_app_found (c : ascii) (a s : string) (j : nat) :
  rfind_char c s = Some j -> rfind_char c (a ++ s) = Some (String.length a + j).
Proof.
  intros H. induction a as [|x a IH]; simpl; [exact H|]. now rewrite IH.
Qed.

Lemma get_find_char (c : ascii) (s : string) (i : nat) :
  find_char c s = Some i -> String.get i s = Some c.
Proof.
  revert i. induction s as [|x s IH]; intros i H; simpl in H; [discriminate|].
  destruct (Ascii.eqb_spec c x) as [->|Hne].
  - injection H as <-. reflexivity.
  - destruct (find_char c s) as [k|] eqn:E; simpl in H; [|discriminate].
    injection H as <-. simpl. now apply IH.
Qed.

Lemma get_rfind_char (c : ascii) (s : string) (j : nat) :
  rfind_char c s = Some j -> String.get j s = Some c.
Proof.
  revert j. induction s as [|x s IH]; intros j H; simpl in H; [discriminate|].
  destruct (rfind_char c s) as [k|] eqn:E.
  - injection H as <-. simpl. now apply IH.
  - destruct (Ascii.eqb_spec c x) as [->|Hne]; [|discriminate].
    injection H as <-. reflexivity.
Qed.

Lemma substring_app_l (a s : string) (k : nat) :
  substring (String.length a) k (a ++ s) = substring 0 k s.
Proof. induction a as [|x a IH]; simpl; [reflexivity | exact IH]. Qed.

Lemma substring_prefix (x y : string) :
  substring 0 (String.length x) (x ++ y) = x.
Proof. induction x as [|c x IH]; simpl; [now destruct y | now rewrite IH]. Qed.

(** ** The brace span of [_extract_json] *)

(** With a first ['{'] (none before it, in [a]) and a last ['}'] (none
    after it, in [b]), the extraction is the span between them. *)
Lemma extract_json_span (canned : json) (a m b : string) :
  ~ In "{"%char (list_ascii_of_string a) ->
  ~ In "}"%char (list_ascii_of_string b) ->
  extract_json canned (a ++ String "{" (m ++ String "}" b))
  = String "{" (m ++ String "}" EmptyString).
Proof.
  intros Ha Hb. unfold extract_json, py_find, py_rfind. cbv zeta.
  rewrite find_char_app_notin by exact Ha. simpl (find_char _ (String "{" _)).
  assert (Hr : rfind_char "}" (a ++ String "{" (m ++ String "}" b))
               = Some (String.length a + S (String.length m))).
  { apply rfind_char_app_found. simpl.
    rewrite (rfind_char_app_found "}" m (String "}" b) 0).
    - now rewrite Nat.add_0_r.
    - simpl. now rewrite rfind_char_notin. }
  rewrite Hr. simpl option_map. cbv beta iota.
  match goal with
  | |- (if ?cond then _ else _) = _ =>
      replace cond with true by (symmetry; apply andb_true_iff; split; [apply Z.leb_le | apply Z.ltb_lt]; lia)
  end.
  unfold slice.
  replace (Z.to_nat (Z.of_nat (String.length a + 0))) with (String.length a) by lia.
  rewrite substring_app_l.
  replace (Z.to_nat (Z.of_nat (String.length a + S (String.length m)) + 1 - Z.of_nat (String.length a + 0)))
    with (String.length (String "{" (m ++ String "}" EmptyString))).
  - replace (String "{" (m ++ String "}" b)) with (String "{" (m ++ String "}" EmptyString) ++ b).
    + apply substring_prefix.
    + simpl. now rewrite string_app_assoc.
  - simpl. rewrite string_length_app. simpl. lia.
Qed.

(** Without a ['{'] followed (later) by a ['}'], the extraction is the
    serialization of the agent's canned record. *)
Lemma extract_json_no_span (canned : json) (text : string) :
  (forall i j, i < j -> String.get i text = Some "{"%char -> String.get j text = Some "}"%char -> False) ->
  extract_json canned text = dumps canned.
Proof.
  intros H. unfold extract_json, py_find, py_rfind. cbv zeta.
  destruct (find_char "{" text) as [i|] eqn:Ei; [|reflexivity].
  pose proof (get_find_char _ _ _ Ei) as Gi.
  destruct (rfind_char "}" text) as [j|] eqn:Ej.
  - pose proof (get_rfind_char _ _ _ Ej) as Gj.
    destruct (Z.ltb_spec (Z.of_nat i) (Z.of_nat j + 1)) as [Hlt|Hge].
    + exfalso. destruct (Nat.eq_dec i j) as [->|Hne].
      * rewrite Gi in Gj. discriminate.
      * apply (H i j); [lia | exact Gi | exact Gj].
    + now rewrite andb_false_r.
  - destruct (Z.ltb_spec (Z.of_nat i) (-1 + 1)); [lia|]. now rewrite andb_false_r.
Qed.

Lemma get_In (i : nat) (s : string) (c : ascii) :
  String.get i s = Some c -> In c (list_ascii_of_string s).
Proof.
  revert i. induction s as [|x s IH]; intros i H; [discriminate|].
  destruct i as [|i]; simpl in H.
  - injection H as ->. now left.
  - right. now apply (IH i).
Qed.

Lemma extract_json_no_open (canned : json) (text : string) :
  find_char "{" text = None -> extract_json canned text = dumps canned.
Proof. intros H. unfold extract_json, py_find. now rewrite H. Qed.

(** The canned records survive the [json.dumps]/[json.loads] round trip. *)
Lemma loads_dumps_plan_parse_failure : loads (dumps plan_parse_failure) = Some plan_parse_failure.
Proof. vm_compute. reflexivity. Qed.

Lemma loads_dumps_research_parse_failure :
  loads (dumps research_parse_failure) = Some research_parse_failure.
Proof. vm_compute. reflexivity. Qed.

Lemma loads_dumps_critic_parse_failure :
  loads (dumps critic_parse_failure) = Some critic_parse_failure.
Proof. vm_compute. reflexivity. Qed.

Lemma validate_plan_parse_failure : validate_plan plan_parse_failure = inr tt.
Proof. vm_compute. reflexivity. Qed.

Ltac not_in_chars :=
  let H := fresh in intros H; simpl in H; repeat (destruct H as [H|H]; [discriminate H|]); exact H.

Definition noisy_response : string := q "noise{'a':1}more noise{'b':2}".

(** C3 *)
(** C3: whenever a ['{'] occurs and the last ['}'] comes after the first
    ['{'], every agent's [_extract_json] returns exactly the span from the
    first ['{'] through the last ['}']. On the text
    [noise{"a":1}more noise{"b":2}] that span is [{"a":1}more noise{"b":2}],
    whose [json.loads] fails, and the stages fall back as on any other
    parse failure (default plan, basic research). *)
Theorem C3_first_last_span (canned : json) (a m b : string)
  (Ha : ~ In "{"%char (list_ascii_of_string a))
  (Hb : ~ In "}"%char (list_ascii_of_string b)) :
  extract_json canned (a ++ String "{" (m ++ String "}" b)) = String "{" (m ++ String "}" EmptyString)
  /\ extract_json canned noisy_response = q "{'a':1}more noise{'b':2}"
  /\ loads (q "{'a':1}more noise{'b':2}") = None
  /\ create_plan (scripted_world noisy_response []) "P" 0 = Some (default_plan "P", 1)
  /\ research_topic (scripted_world noisy_response [sample_hit]) "T" None 0
     = Some (basic_research "T" [sample_hit], 2).
Proof.
  split; [now apply extract_json_span|].
  split.
  - assert (E : noisy_response = "noise" ++ String "{" (q "'a':1}more noise{'b':2" ++ String "}" ""))
      by (vm_compute; reflexivity).
    rewrite E, extract_json_span by not_in_chars. vm_compute. reflexivity.
  - vm_compute. repeat split.
Qed.

Lemma C3_first_last_span_witness :
  (~ In "{"%char (list_ascii_of_string "noise")) /\ (~ In "}"%char (list_ascii_of_string ""))
  /\ extract_json plan_parse_failure ("noise" ++ String "{" ("x" ++ String "}" ""))
     = String "{" ("x" ++ String "}" EmptyString).
Proof.
  split; [not_in_chars|]. split; [not_in_chars|].
  apply (C3_first_last_span plan_parse_failure "noise" "x" ""); not_in_chars.
Defined.

(** C4 *)
(** C4 (counterexample): on a text without braces the planner's
    extraction returns [json.dumps] of its canned record, which
    deserializes and validates, so [create_plan] returns the canned
    ["Parsing failed"] plan, not its fallback [default_plan]. *)
Lemma C4_counterexample :
  extract_json plan_parse_failure "no braces here" = dumps plan_parse_failure
  /\ loads (extract_json plan_parse_failure "no braces here") = Some plan_parse_failure
  /\ create_plan (scripted_world "no braces here" []) "P" 0 = Some (plan_parse_failure, 1)
  /\ plan_parse_failure <> default_plan "P".
Proof. vm_compute. repeat split. discriminate. Qed.

(** C4 (amended): without a ['{'] followed later by a ['}'], each agent's
    extraction returns the serialization of its own canned record; it
    deserializes, and the stage returns that canned record (the planner's
    passes validation; the researcher adds [raw_results], the critic its
    two metadata keys). *)
Theorem C4_no_span_canned_record (text problem topic : string) (hits : list hit) (research : obj)
  (Hno : forall i j, i < j -> String.get i text = Some "{"%char ->
                     String.get j text = Some "}"%char -> False) :
  extract_json plan_parse_failure text = dumps plan_parse_failure
  /\ extract_json research_parse_failure text = dumps research_parse_failure
  /\ extract_json critic_parse_failure text = dumps critic_parse_failure
  /\ plan_of_response problem text = plan_parse_failure
  /\ research_of_response topic hits text
     = set_key "raw_results" (hits_json hits) research_parse_failure_obj
  /\ critique_of_response research text
     = set_key "original_research_summary" (get_default "summary" (JStr "") research)
         (set_key "research_topic" (get_default "topic" (JStr "") research) critic_parse_failure_obj).
Proof.
  pose proof (extract_json_no_span plan_parse_failure text Hno) as Ep.
  pose proof (extract_json_no_span research_parse_failure text Hno) as Er.
  pose proof (extract_json_no_span critic_parse_failure text Hno) as Ec.
  split; [exact Ep|]. split; [exact Er|]. split; [exact Ec|].
  unfold plan_of_response, research_of_response, critique_of_response.
  rewrite Ep, Er, Ec, loads_dumps_plan_parse_failure, loads_dumps_research_parse_failure,
    loads_dumps_critic_parse_failure, validate_plan_parse_failure.
  repeat split.
Qed.

Lemma C4_no_span_canned_record_witness :
  plan_of_response "P" "} then {" = plan_parse_failure.
Proof.
  refine (proj1 (proj2 (proj2 (proj2
    (C4_no_span_canned_record "} then {" "P" "T" [] [] _))))).
  intros i j Hij Hi Hj.
  destruct j as [|j]; [lia|].
  change (String.get j " then {" = Some "}"%char) in Hj. apply get_In in Hj. revert Hj. not_in_chars.
Defined.

(** C5 *)
(** C5 (counterexample): when the model raises ("Connection error."),
    [create_plan] returns the canned ["Parsing failed"] plan built from the
    error text, not the default plan carrying the problem. *)
Lemma C5_counterexample :
  create_plan offline_world "Evaluate X" 0 = Some (plan_parse_failure, 1)
  /\ plan_parse_failure <> default_plan "Evaluate X".
Proof. vm_compute. split; [reflexivity | discriminate]. Qed.

(** C5 (amended): when the model raises with message [e], [generate]
    returns the text ["Error generating response: " ++ e] and the stage
    processes that text as a model response; if [e] has no ['{'] the
    planner returns its canned ["Parsing failed"] plan. *)
Theorem C5_model_failure_is_text (w : World) (problem : string) (t : nat) (e : string)
  (Hfail : llm w t (planning_prompt problem) = LLMExc e) :
  generate w (planning_prompt problem) t = Some ("Error generating response: " ++ e, S t)
  /\ create_plan w problem t
     = Some (plan_of_response problem ("Error generating response: " ++ e), S t)
  /\ (~ In "{"%char (list_ascii_of_string e) -> create_plan w problem t = Some (plan_parse_failure, S t)).
Proof.
  assert (G : generate w (planning_prompt problem) t = Some ("Error generating response: " ++ e, S t))
    by (unfold generate; now rewrite Hfail).
  assert (C : create_plan w problem t
              = Some (plan_of_response problem ("Error generating response: " ++ e), S t))
    by (unfold create_plan, bind, ret; now rewrite G).
  split; [exact G|]. split; [exact C|].
  intros Hn. rewrite C. f_equal. f_equal.
  unfold plan_of_response.
  rewrite extract_json_no_open.
  - now rewrite loads_dumps_plan_parse_failure, validate_plan_parse_failure.
  - rewrite find_char_app_notin by not_in_chars. now rewrite find_char_notin.
Qed.

Lemma C5_model_failure_is_text_witness :
  llm offline_world 0 (planning_prompt "Evaluate X") = LLMExc "Connection error."
  /\ create_plan offline_world "Evaluate X" 0 = Some (plan_parse_failure, 1).
Proof.
  split; [reflexivity|].
  apply (proj2 (proj2 (C5_model_failure_is_text offline_world "Evaluate X" 0 "Connection error." eq_refl))).
  not_in_chars.
Defined.

(** C6 *)
Definition plan_with_numeric_subtasks : json :=
  JObj [("problem", JStr "p"); ("subtasks", JNum "5"); ("rationale", JStr "r")].

(** C6 (counterexample): plan validation also checks the type of
    [subtasks], and a research record parsed from the model ([{}]) is
    returned with none of the research keys, without any check. *)
Lemma C6_counterexample :
  validate_plan plan_with_numeric_subtasks = inl "Subtasks must be a list"
  /\ research_topic (scripted_world "{}" [sample_hit]) "T" None 0
     = Some ([("raw_results", hits_json [sample_hit])], 2).
Proof. vm_compute. split; reflexivity. Qed.

Definition plan_keys : list string := ["problem"; "subtasks"; "rationale"].

(** C6 (amended): only the plan is validated: it passes exactly when the
    keys [problem], [subtasks], [rationale] are present and [subtasks] is
    a list, and a missing key is named in the error. A parsed research or
    critique object is kept as it is, whatever keys it has. *)
Theorem C6_only_plan_validated (o : obj) (topic response : string) (hits : list hit)
  (research parsed : obj)
  (Hr : loads (extract_json research_parse_failure response) = Some (JObj parsed))
  (Hc : loads (extract_json critic_parse_failure response) = Some (JObj parsed)) :
  (validate_plan (JObj o) = inr tt
   <-> forallb (fun k => has_key k o) plan_keys = true
       /\ exists l, lookup "subtasks" o = Some (JArr l))
  /\ (existsb (fun k => negb (has_key k o)) plan_keys = true ->
      exists k, In k plan_keys /\ has_key k o = false
                /\ validate_plan (JObj o) = inl ("Missing required key in plan: " ++ k))
  /\ research_of_response topic hits response = set_key "raw_results" (hits_json hits) parsed
  /\ critique_of_response research response
     = set_key "original_research_summary" (get_default "summary" (JStr "") research)
         (set_key "research_topic" (get_default "topic" (JStr "") research) parsed).
Proof.
  split; [|split; [|split]].
  - unfold validate_plan, plan_keys. simpl.
    destruct (has_key "problem" o); simpl;
      [|split; [discriminate | intros [H _]; discriminate]].
    destruct (has_key "subtasks" o); simpl;
      [|split; [discriminate | intros [H _]; discriminate]].
    destruct (has_key "rationale" o); simpl;
      [|split; [discriminate | intros [H _]; discriminate]].
    destruct (lookup "subtasks" o) as [[| | | |l|]|]; split;
      try discriminate; try (intros [_ [l' H]]; discriminate);
      intros; eauto.
  - unfold validate_plan, plan_keys. simpl.
    destruct (has_key "problem" o) eqn:E1; simpl; [|intros _; exists "problem"; auto].
    destruct (has_key "subtasks" o) eqn:E2; simpl; [|intros _; exists "subtasks"; auto].
    destruct (has_key "rationale" o) eqn:E3; simpl; [discriminate|].
    intros _; exists "rationale"; auto.
  - unfold research_of_response. now rewrite Hr.
  - unfold critique_of_response. now rewrite Hc.
Qed.

Lemma C6_only_plan_validated_witness :
  research_of_response "T" [sample_hit] "{}" = [("raw_results", hits_json [sample_hit])].
Proof.
  exact (proj1 (proj2 (proj2 (C6_only_plan_validated [] "T" "{}" [sample_hit] [] [] eq_refl eq_refl)))).
Defined.

(** C7 *)
Lemma split_aux_append_year (cur s : string) :
  split_aux cur (s ++ " 2024") = (split_aux cur s ++ ["2024"])%list.
Proof.
  revert cur. induction s as [|c s IH]; intros cur.
  - simpl. destruct (String.eqb cur ""); reflexivity.
  - simpl. destruct (is_space c).
    + rewrite IH. now rewrite app_assoc.
    + apply IH.
Qed.

Lemma py_split_append_year (s : string) : py_split (s ++ " 2024") = (py_split s ++ ["2024"])%list.
Proof. apply split_aux_append_year. Qed.

Definition twenty_words : string := "a b c d e f g h i j k l m n o p q r s t".

(** C7 (counterexample): a 20-word query without a year loses the
    appended ["2024"] to the truncation (the year is appended first, then
    the query is cut to 12 words), and a query holding another year
    (2022) still gets ["2024"]. *)
Lemma C7_counterexample :
  serp_query twenty_words = "a b c d e f g h i j k l"
  /\ serp_query twenty_words <> join " " (firstn 12 (py_split twenty_words)) ++ " 2024"
  /\ serp_query "best colleges 2022 ranking" = "best colleges 2022 ranking 2024".
Proof. vm_compute. split; [reflexivity | split; [discriminate | reflexivity]]. Qed.

(** C7 (amended): ["2024"] is appended unless ["2024"] or ["2023"] occurs
    in the query; the result is then cut to its first 12 words when it has
    more than 15. Hence a query with a year is unchanged up to 15 words,
    and a year-less query of 15 words or more becomes its first 12 words,
    without the year. *)
Theorem C7_serp_query_shape (query : string) :
  serp_query query =
    (if contains "2024" (lower (strip query)) || contains "2023" (lower (strip query)) then
       if 15 <? List.length (py_split query) then join " " (firstn 12 (py_split query)) else query
     else
       if 15 <=? List.length (py_split query) then join " " (firstn 12 (py_split query))
       else query ++ " 2024")
  /\ serp_query "best colleges 2023 ranking" = "best colleges 2023 ranking"
  /\ serp_query "best colleges ranking" = "best colleges ranking 2024"
  /\ serp_query twenty_words = join " " (firstn 12 (py_split twenty_words)).
Proof.
  split; [|vm_compute; repeat split].
  unfold serp_query, optimize_query.
  destruct (contains "2024" (lower (strip query))), (contains "2023" (lower (strip query)));
    cbn [negb andb orb]; try reflexivity.
  rewrite py_split_append_year, length_app. change (List.length ["2024"]) with 1.
  destruct (Nat.leb_spec 15 (List.length (py_split query))) as [Hle|Hgt].
  - replace (15 <? List.length (py_split query) + 1) with true
      by (symmetry; apply Nat.ltb_lt; lia).
    rewrite firstn_app. replace (12 - List.length (py_split query)) with 0 by lia.
    now rewrite app_nil_r.
  - replace (15 <? List.length (py_split query) + 1) with false
      by (symmetry; apply Nat.ltb_ge; lia).
    reflexivity.
Qed.

(** ** Dictionary facts *)

Lemma lookup_set_key_same (k : string) (v : json) (o : obj) : lookup k (set_key k v o) = Some v.
Proof.
  induction o as [|[k' v'] o IH]; simpl.
  - now rewrite String.eqb_refl.
  - destruct (String.eqb k k') eqn:E; simpl.
    + now rewrite String.eqb_refl.
    + now rewrite E.
Qed.

Lemma has_key_set_key_same (k : string) (v : json) (o : obj) : has_key k (set_key k v o) = true.
Proof. unfold has_key. now rewrite lookup_set_key_same. Qed.

Lemma has_key_set_key_other (k k' : string) (v : json) (o : obj) :
  has_key k o = true -> has_key k (set_key k' v o) = true.
Proof.
  unfold has_key. induction o as [|[k0 v0] o IH]; simpl; [discriminate|].
  destruct (String.eqb k' k0) eqn:E1; simpl.
  - apply String.eqb_eq in E1 as ->. destruct (String.eqb k k0); auto.
  - destruct (String.eqb k k0); auto.
Qed.

(** ** Appending in a loop *)

Lemma fold_left_append_filter {A B : Type} (p : A -> bool) (f : A -> B) (l : list A) (acc : list B) :
  fold_left (fun acc x => if p x then (acc ++ [f x])%list else acc) l acc
  = (acc ++ map f (filter p l))%list.
Proof.
  revert acc. induction l as [|x l IH]; intros acc; simpl.
  - now rewrite app_nil_r.
  - destruct (p x); rewrite IH; [simpl; now rewrite <- app_assoc | reflexivity].
Qed.

(** C8 *)
(** C8: the recommendations are the ["Consider: <task>"] lines of the
    subtasks mentioning "recommend"/"suggest", then the per-critique
    ["Task <id>: <recommendation>"] lines, replaced by the 5-item default
    list when empty, and cut to 5 entries; so at most 5, the default list
    verbatim on empty sources, never empty, and [top_recommendation] is
    the first entry. *)
Theorem C8_recommendations_shape (subtasks : list Subtask) (critiques : list CritiqueItem) :
  let combined := (map consider_line (filter (fun task => mentions_recommend (st_task task)) subtasks)
                   ++ map critique_recommendation_line (filter has_recommendation critiques))%list in
  generate_recommendations subtasks critiques
    = firstn 5 (match combined with [] => default_recommendations | _ => combined end)
  /\ List.length (generate_recommendations subtasks critiques) <= 5
  /\ (combined = [] -> generate_recommendations subtasks critiques = default_recommendations)
  /\ exists r rest, generate_recommendations subtasks critiques = r :: rest
                    /\ top_recommendation (generate_recommendations subtasks critiques) = r.
Proof.
  intros combined.
  assert (E : generate_recommendations subtasks critiques
              = firstn 5 (match combined with [] => default_recommendations | _ => combined end)).
  { unfold generate_recommendations, combined.
    rewrite (fold_left_append_filter (fun task => mentions_recommend (st_task task)) consider_line).
    rewrite (fold_left_append_filter has_recommendation critique_recommendation_line).
    reflexivity. }
  split; [exact E|]. split; [|split].
  - rewrite E. apply firstn_le_length.
  - intros H. rewrite E, H. reflexivity.
  - rewrite E. destruct combined as [|r rest].
    + exists "Conduct more targeted market research". eexists. split; reflexivity.
    + exists r, (firstn 4 rest). split; reflexivity.
Qed.

(** C9 *)
Definition improvement (priority suggestion : string) : json :=
  JObj [("area", JStr "A"); ("suggestion", JStr suggestion); ("priority", JStr priority)].

Definition critique_low_high_high : CritiqueItem :=
  mk_critique_item (JNum "1")
    [("improvements", JArr [improvement "low" "x"; improvement "high" "a"; improvement "high" "b"])].

(** C9 (counterexample): with improvements [low, high a, high b] the
    next steps hold only ["High priority: a"]: the per-critique cap takes
    the first 2 improvements and then keeps the high ones, rather than the
    first 2 high-priority ones. *)
Lemma C9_counterexample :
  generate_next_steps [critique_low_high_high] = Some ["High priority: a"]
  /\ generate_next_steps [critique_low_high_high] <> Some ["High priority: a"; "High priority: b"].
Proof. vm_compute. split; [reflexivity | discriminate]. Qed.

Definition high_line (imp : obj) : string :=
  "High priority: " ++ py_str (get_default "suggestion" (JStr "") imp).

Definition high_of_first_two (imps : list obj) : list string :=
  map high_line (filter (fun imp => is_high (get_default "priority" JNull imp)) (firstn 2 imps)).

Lemma obind_Some {A B} (a : A) (f : A -> option B) : obind (Some a) f = f a.
Proof. reflexivity. Qed.

Lemma omap_high_steps (l : list obj) :
  omap (fun imp =>
          pr <-? py_get imp "priority" JNull;;
          if is_high pr then
            sug <-? py_get imp "suggestion" (JStr "");;
            Some ["High priority: " ++ py_str sug]
          else Some []) (map JObj l)
  = Some (map (fun imp => if is_high (get_default "priority" JNull imp) then [high_line imp] else []) l).
Proof.
  induction l as [|imp l IH]; [reflexivity|].
  cbn [map omap]. rewrite IH. simpl.
  destruct (is_high (get_default "priority" JNull imp)); reflexivity.
Qed.

Lemma concat_high_steps (l : list obj) :
  concat (map (fun imp => if is_high (get_default "priority" JNull imp) then [high_line imp] else []) l)
  = map high_line (filter (fun imp => is_high (get_default "priority" JNull imp)) l).
Proof.
  induction l as [|imp l IH]; simpl; [reflexivity|].
  destruct (is_high (get_default "priority" JNull imp)); simpl; now rewrite IH.
Qed.

Lemma next_steps_of_list (critique : obj) (imps : list obj) :
  get_default "improvements" (JArr []) critique = JArr (map JObj imps) ->
  next_steps_of critique = Some (high_of_first_two imps).
Proof.
  intros H. unfold next_steps_of. rewrite H.
  cbn [py_slice]. rewrite obind_Some. cbn beta.
  cbn [py_iter]. rewrite obind_Some. cbn beta.
  rewrite firstn_map, omap_high_steps, obind_Some.
  now rewrite concat_high_steps.
Qed.

Lemma fold_next_steps (critiques : list CritiqueItem) (imps : CritiqueItem -> list obj)
  (acc : list string) :
  Forall (fun ci => get_default "improvements" (JArr []) (ci_critique ci) = JArr (map JObj (imps ci)))
         critiques ->
  fold_left (fun acc item =>
               steps <-? acc;;
               more <-? next_steps_of (ci_critique item);;
               Some (steps ++ more)%list)
            critiques (Some acc)
  = Some (acc ++ concat (map (fun ci => high_of_first_two (imps ci)) critiques))%list.
Proof.
  revert acc. induction critiques as [|ci cs IH]; intros acc H; simpl.
  - now rewrite app_nil_r.
  - inversion H as [|? ? Hci Hcs]; subst.
    rewrite (next_steps_of_list _ (imps ci) Hci). simpl.
    rewrite IH by exact Hcs. now rewrite app_assoc.
Qed.

(** C9 (amended): when every critique's [improvements] is a list of
    objects (or absent), the next steps are, critique by critique, the
    ["High priority: <suggestion>"] lines of those among its first 2
    improvements whose priority is ["high"], cut to 5 entries, or the
    4-item default list when there are none. *)
Theorem C9_next_steps_first_two (critiques : list CritiqueItem) (imps : CritiqueItem -> list obj)
  (Himps : Forall (fun ci => get_default "improvements" (JArr []) (ci_critique ci)
                             = JArr (map JObj (imps ci))) critiques) :
  let high := concat (map (fun ci => high_of_first_two (imps ci)) critiques) in
  generate_next_steps critiques
  = Some (firstn 5 (match high with [] => default_next_steps | _ => high end)).
Proof.
  intros high. unfold generate_next_steps.
  rewrite (fold_next_steps critiques imps [] Himps). reflexivity.
Qed.

Lemma C9_next_steps_first_two_witness :
  generate_next_steps [critique_low_high_high] = Some ["High priority: a"].
Proof.
  refine (C9_next_steps_first_two [critique_low_high_high]
            (fun _ => [[("area", JStr "A"); ("suggestion", JStr "x"); ("priority", JStr "low")];
                       [("area", JStr "A"); ("suggestion", JStr "a"); ("priority", JStr "high")];
                       [("area", JStr "A"); ("suggestion", JStr "b"); ("priority", JStr "high")]]) _).
  repeat constructor.
Defined.

(** ** The stages always return (research) or return when the findings
    summary can be prepared (critique) *)

Lemma search_web_total (w : World) (query : string) (max_results t : nat) :
  exists hits t', search_web w query max_results t = Some (hits, t').
Proof.
  unfold search_web, fallback_search.
  destruct (serp_api_key w) as [[|c k]|]; eauto.
  destruct (serp w t (serp_query query) max_results) as [[items|]|msg]; eauto.
Qed.

Lemma research_topic_unfold (w : World) (topic : string) (sq : option string) (t : nat)
  (hits : list hit) (t1 : nat) :
  search_web w (research_query topic sq) 5 t = Some (hits, t1) ->
  research_topic w topic sq t
  = match hits with
    | [] => Some (empty_research topic, t1)
    | _ => Some (research_of_response topic hits
                   (match llm w t1 (research_prompt topic (format_search_results hits)) with
                    | LLMOk c => c
                    | LLMExc e => "Error generating response: " ++ e
                    end), S t1)
    end.
Proof.
  intros H. unfold research_topic, bind. cbv zeta. rewrite H.
  destruct hits; reflexivity.
Qed.

Lemma research_topic_total (w : World) (topic : string) (sq : option string) (t : nat) :
  exists r t', research_topic w topic sq t = Some (r, t').
Proof.
  destruct (search_web_total w (research_query topic sq) 5 t) as [hits [t1 H]].
  rewrite (research_topic_unfold w topic sq t hits t1 H).
  destruct hits; eauto.
Qed.

Lemma critique_research_unfold (w : World) (research : obj) (t : nat) (findings : string) :
  prepare_findings_summary research = Some findings ->
  critique_research w research t
  = Some (critique_of_response research
            (match llm w t (critique_prompt (py_str (get_default "topic" (JStr "Unknown topic") research))
                                            findings) with
             | LLMOk c => c
             | LLMExc e => "Error generating response: " ++ e
             end), S t).
Proof. intros H. unfold critique_research, bind, lift_opt. now rewrite H. Qed.

(** C10 *)
(** C10: on every path (parsed analysis, analysis failure, no search
    results) the record of [research_topic] has a ["raw_results"] entry
    equal to the hits [search_web] returned in that call. *)
Theorem C10_raw_results_are_search_hits (w : World) (topic : string) (sq : option string) (t : nat) :
  exists hits t1 r t2,
    search_web w (research_query topic sq) 5 t = Some (hits, t1)
    /\ research_topic w topic sq t = Some (r, t2)
    /\ lookup "raw_results" r = Some (hits_json hits).
Proof.
  destruct (search_web_total w (research_query topic sq) 5 t) as [hits [t1 H]].
  exists hits, t1.
  rewrite (research_topic_unfold w topic sq t hits t1 H).
  destruct hits as [|h hs].
  - eexists; eexists; split; [exact H | split; reflexivity].
  - eexists; eexists; split; [exact H | split; [reflexivity|]].
    unfold research_of_response.
    match goal with |- context [loads ?x] => destruct (loads x) as [[| | | | |o]|] end;
      try apply lookup_set_key_same; reflexivity.
Qed.

(** C1 *)
(** The subtasks of [default_plan], as [analyze] reads them. *)
Definition default_subtasks : list Subtask :=
  [mk_subtask (JNum "1") "Research and gather information about the problem" "researcher";
   mk_subtask (JNum "2") "Analyze the gathered information" "analyst";
   mk_subtask (JNum "3") "Validate the analysis and provide recommendations" "critic"].

(** C1 (counterexample): for the three subtasks of the default plan
    (agents researcher, analyst, critic) [analyze] produces 2 research
    records and 2 critiques: the subtask with agent ["critic"] is skipped. *)
Lemma C1_counterexample :
  match run_subtasks offline_world default_subtasks 0 with
  | Some ((rs, cs), _) =>
      List.length default_subtasks = 3 /\ List.length rs = 2 /\ List.length cs = 2
      /\ map ri_task_id rs = [JNum "1"; JNum "2"]
  | None => False
  end.
Proof. vm_compute. repeat split. Qed.

Lemma research_loop_ids (w : World) (tasks : list Subtask) (t : nat) (rs : list ResearchItem) (t1 : nat) :
  research_loop w tasks t = Some (rs, t1) ->
  map ri_task_id rs = map st_id (filter (fun task => research_agent (st_agent task)) tasks)
  /\ map ri_task_description rs = map st_task (filter (fun task => research_agent (st_agent task)) tasks).
Proof.
  revert t rs t1. induction tasks as [|task rest IH]; intros t rs t1 H.
  - cbv [research_loop ret] in H. injection H as <- _. split; reflexivity.
  - cbn [research_loop filter] in H |- *. destruct (research_agent (st_agent task)).
    + cbv [bind lift_opt ret] in H.
      destruct (research_topic w (st_task task) None t) as [[r t']|]; [|discriminate H].
      destruct (display_research r); [|discriminate H].
      destruct (research_loop w rest t') as [[items t'']|] eqn:E; [|discriminate H].
      injection H as <- _. destruct (IH t' items t'' E) as [Hid Hdesc].
      simpl. rewrite Hid, Hdesc. split; reflexivity.
    + exact (IH t rs t1 H).
Qed.

Lemma critique_loop_ids (w : World) (rs : list ResearchItem) (t : nat) (cs : list CritiqueItem) (t' : nat) :
  critique_loop w rs t = Some (cs, t') -> map ci_task_id cs = map ri_task_id rs.
Proof.
  revert t cs t'. induction rs as [|r rs IH]; intros t cs t' H.
  - cbv [critique_loop ret] in H. injection H as <- _. reflexivity.
  - cbn [critique_loop] in H. cbv [bind lift_opt ret] in H.
    destruct (critique_research w (ri_research r) t) as [[c t1]|]; [|discriminate H].
    destruct (display_critique c); [|discriminate H].
    destruct (critique_loop w rs t1) as [[cs' t2]|] eqn:E; [|discriminate H].
    injection H as <- _. simpl. now rewrite (IH t1 cs' t2 E).
Qed.

(** The research step returns when [display_research] accepts every
    record [research_topic] can produce. *)
Lemma research_loop_total (w : World) (tasks : list Subtask) (t : nat)
  (Hdisp : forall topic sq k r k', research_topic w topic sq k = Some (r, k') ->
                                   display_research r = Some tt) :
  exists rs t1, research_loop w tasks t = Some (rs, t1)
    /\ Forall (fun ri => exists k k', research_topic w (ri_task_description ri) None k
                                      = Some (ri_research ri, k')) rs.
Proof.
  revert t. induction tasks as [|task rest IH]; intros t.
  - exists [], t. split; [reflexivity | constructor].
  - cbn [research_loop]. destruct (research_agent (st_agent task)); [|apply IH].
    destruct (research_topic_total w (st_task task) None t) as [r [t' Er]].
    destruct (IH t') as [rs [t1 [Ers Hrs]]].
    exists (mk_research_item (st_id task) (st_task task) r :: rs), t1. split.
    + cbv [bind lift_opt ret]. rewrite Er. cbv beta iota.
      rewrite (Hdisp _ _ _ _ _ Er). rewrite Ers. reflexivity.
    + constructor; [exists t, t'; exact Er | exact Hrs].
Qed.

(** The critique step returns when every findings summary can be
    prepared and [display_critique] accepts every critique. *)
Lemma critique_loop_total (w : World) (rs : list ResearchItem) (t : nat)
  (Hprep : Forall (fun r => prepare_findings_summary (ri_research r) <> None) rs)
  (Hdisp : forall research k c k', critique_research w research k = Some (c, k') ->
                                   display_critique c = Some tt) :
  exists cs t', critique_loop w rs t = Some (cs, t').
Proof.
  revert t. induction Hprep as [|r rs Hr Hrs IH]; intros t.
  - exists [], t. reflexivity.
  - destruct (prepare_findings_summary (ri_research r)) as [f|] eqn:Ef; [|congruence].
    pose proof (critique_research_unfold w (ri_research r) t f Ef) as E.
    destruct (IH (S t)) as [cs [t' Ecs]].
    cbn [critique_loop]. cbv [bind lift_opt ret]. rewrite E. cbv beta iota.
    rewrite (Hdisp _ _ _ _ E). rewrite Ecs. eexists; eexists; reflexivity.
Qed.

(** In [offline_world], [research_topic] gives the empty research,
    which is displayed and summarized. *)
Lemma offline_research_ok (topic : string) (sq : option string) (k : nat) (r : obj) (k' : nat) :
  research_topic offline_world topic sq k = Some (r, k') ->
  display_research r = Some tt /\ prepare_findings_summary r <> None.
Proof.
  intros H.
  rewrite (research_topic_unfold offline_world topic sq k [] (S k) eq_refl) in H.
  injection H as <- _. split; [reflexivity|].
  intros E. vm_compute in E. discriminate E.
Qed.

(** In [offline_world], every critique is the canned parse-failure
    record, which [display_critique] accepts. *)
Lemma offline_critique_ok (research : obj) (k : nat) (c : obj) (k' : nat) :
  critique_research offline_world research k = Some (c, k') -> display_critique c = Some tt.
Proof.
  intros H. destruct (prepare_findings_summary research) as [f|] eqn:Ef.
  - rewrite (critique_research_unfold offline_world research k f Ef) in H.
    injection H as <- _. vm_compute. reflexivity.
  - unfold critique_research, bind, lift_opt in H. rewrite Ef in H. discriminate H.
Qed.

(** C1 (amended): for every list of subtasks and every environment,
    whenever steps 2 and 3 of [analyze] return (the display methods
    included), there is one research record per subtask whose agent is
    researcher, analyst or data_scientist, in plan order, carrying that
    subtask's id and task, and one critique per research record, in the
    same order and with the same task ids; and the two steps do return
    whenever [display_research] accepts and the critic can summarize
    every record [research_topic] produces, and [display_critique]
    accepts every critique [critique_research] produces. *)
Theorem C1_one_record_per_research_subtask (w : World) (tasks : list Subtask) (t : nat) :
  (forall rs cs t', run_subtasks w tasks t = Some ((rs, cs), t') ->
     map ri_task_id rs = map st_id (filter (fun task => research_agent (st_agent task)) tasks)
     /\ map ri_task_description rs = map st_task (filter (fun task => research_agent (st_agent task)) tasks)
     /\ map ci_task_id cs = map ri_task_id rs)
  /\ ((forall topic sq k r k', research_topic w topic sq k = Some (r, k') ->
                               display_research r = Some tt /\ prepare_findings_summary r <> None) ->
      (forall research k c k', critique_research w research k = Some (c, k') ->
                               display_critique c = Some tt) ->
      exists rs cs t', run_subtasks w tasks t = Some ((rs, cs), t')).
Proof.
  split.
  - intros rs cs t' H. unfold run_subtasks in H. cbv [bind ret] in H.
    destruct (research_loop w tasks t) as [[rs1 t1]|] eqn:Ers; [|discriminate H].
    destruct (critique_loop w rs1 t1) as [[cs1 t2]|] eqn:Ecs; [|discriminate H].
    injection H as <- <- _.
    destruct (research_loop_ids w tasks t rs1 t1 Ers) as [Hid Hdesc].
    split; [exact Hid | split; [exact Hdesc | exact (critique_loop_ids w rs1 t1 cs1 t2 Ecs)]].
  - intros Hr Hc.
    destruct (research_loop_total w tasks t (fun topic sq k r k' E => proj1 (Hr topic sq k r k' E)))
      as [rs [t1 [Ers Hrs]]].
    assert (Hprep : Forall (fun r => prepare_findings_summary (ri_research r) <> None) rs).
    { eapply Forall_impl; [|exact Hrs]. intros ri [k [k' E]]. exact (proj2 (Hr _ _ _ _ _ E)). }
    destruct (critique_loop_total w rs t1 Hprep Hc) as [cs [t2 Ecs]].
    exists rs, cs, t2. unfold run_subtasks. cbv [bind ret]. rewrite Ers, Ecs. reflexivity.
Qed.

Lemma C1_one_record_per_research_subtask_witness :
  exists rs cs t', run_subtasks offline_world default_subtasks 0 = Some ((rs, cs), t')
    /\ map ri_task_id rs
       = map st_id (filter (fun task => research_agent (st_agent task)) default_subtasks)
    /\ map ci_task_id cs = map ri_task_id rs.
Proof.
  destruct (C1_one_record_per_research_subtask offline_world default_subtasks 0) as [Hids Htot].
  destruct (Htot offline_research_ok offline_critique_ok) as [rs [cs [t' E]]].
  destruct (Hids rs cs t' E) as [H1 [_ H3]].
  exists rs, cs, t'. split; [exact E | split; [exact H1 | exact H3]].
Defined.

(** C2 *)
Definition research_with_bare_finding : obj := [("key_findings", JArr [JObj []])].

(** C2 (counterexample): a model answer [{}] gives a research record with
    none of the research fields (only [raw_results]); and a research
    record whose finding has no ["category"] makes [critique_research]
    raise, since the findings summary is prepared outside its [try]. *)
Lemma C2_counterexample :
  research_topic (scripted_world "{}" [sample_hit]) "T" None 0
    = Some ([("raw_results", hits_json [sample_hit])], 2)
  /\ has_key "summary" [("raw_results", hits_json [sample_hit])] = false
  /\ critique_research offline_world research_with_bare_finding 0 = None.
Proof. vm_compute. repeat split. Qed.

Lemma validate_plan_ok (p : json) :
  validate_plan p = inr tt ->
  exists o, p = JObj o /\ forallb (fun k => has_key k o) plan_keys = true
            /\ exists l, lookup "subtasks" o = Some (JArr l).
Proof.
  destruct p as [| | | | |o]; simpl; try discriminate.
  destruct (has_key "problem" o) eqn:E1; simpl; [|discriminate].
  destruct (has_key "subtasks" o) eqn:E2; simpl; [|discriminate].
  destruct (has_key "rationale" o) eqn:E3; simpl; [|discriminate].
  destruct (lookup "subtasks" o) as [[| | | |l|]|] eqn:E; try discriminate.
  intros _. exists o. split; [reflexivity|]. split; [|eauto].
  unfold plan_keys. simpl. now rewrite E1, E2, E3.
Qed.

Lemma plan_of_response_keys (problem response : string) :
  exists o, plan_of_response problem response = JObj o
            /\ forallb (fun k => has_key k o) plan_keys = true
            /\ exists l, lookup "subtasks" o = Some (JArr l).
Proof.
  unfold plan_of_response.
  destruct (loads (extract_json plan_parse_failure response)) as [p|];
    [|eexists; split; [reflexivity | split; [reflexivity | eexists; reflexivity]]].
  destruct (validate_plan p) as [msg|[]] eqn:V.
  - eexists; split; [reflexivity | split; [reflexivity | eexists; reflexivity]].
  - exact (validate_plan_ok p V).
Qed.

Lemma research_topic_raw_results (w : World) (topic : string) (sq : option string) (t : nat) :
  exists r t', research_topic w topic sq t = Some (r, t') /\ has_key "raw_results" r = true.
Proof.
  destruct (search_web_total w (research_query topic sq) 5 t) as [hits [t1 H]].
  rewrite (research_topic_unfold w topic sq t hits t1 H).
  destruct hits as [|h hs]; [eauto|].
  eexists; eexists; split; [reflexivity|].
  unfold research_of_response.
  match goal with |- context [loads ?x] => destruct (loads x) as [[| | | | |o]|] end;
    try apply has_key_set_key_same; reflexivity.
Qed.

(** C2 (amended): for every environment, [create_plan] returns a plan
    with [problem], [subtasks] (a list) and [rationale]; [research_topic]
    returns a record with [raw_results]; and [critique_research], when the
    findings summary of its input can be prepared, returns a record with
    [research_topic] and [original_research_summary]. The parsed research
    and critique objects are otherwise not checked against a schema. *)
Theorem C2_stages_return_records (w : World) (research : obj)
  (Hprep : prepare_findings_summary research <> None) :
  (forall problem t, exists o,
      create_plan w problem t = Some (JObj o, S t)
      /\ forallb (fun k => has_key k o) plan_keys = true
      /\ exists l, lookup "subtasks" o = Some (JArr l))
  /\ (forall topic sq t, exists r t',
      research_topic w topic sq t = Some (r, t') /\ has_key "raw_results" r = true)
  /\ (forall t, exists c,
      critique_research w research t = Some (c, S t)
      /\ has_key "research_topic" c = true /\ has_key "original_research_summary" c = true).
Proof.
  split; [|split].
  - intros problem t.
    unfold create_plan, bind, ret, generate.
    match goal with |- context [plan_of_response problem ?r] =>
      destruct (plan_of_response_keys problem r) as [o [Eo Ho]] end.
    exists o. rewrite Eo. split; [reflexivity | exact Ho].
  - apply research_topic_raw_results.
  - intros t. destruct (prepare_findings_summary research) as [f|] eqn:Ef; [|congruence].
    rewrite (critique_research_unfold w research t f Ef).
    eexists. split; [reflexivity|].
    unfold critique_of_response.
    match goal with |- context [loads ?x] => destruct (loads x) as [[| | | | |o]|] end;
      try (split; [apply has_key_set_key_other, has_key_set_key_same | apply has_key_set_key_same]);
      split; reflexivity.
Qed.

Lemma C2_stages_return_records_witness :
  prepare_findings_summary (empty_research "x") <> None
  /\ exists c, critique_research offline_world (empty_research "x") 0 = Some (c, 1)
               /\ has_key "research_topic" c = true.
Proof.
  assert (H : prepare_findings_summary (empty_research "x") <> None) by (vm_compute; discriminate).
  split; [exact H|].
  destruct (proj2 (proj2 (C2_stages_return_records offline_world (empty_research "x") H)) 0)
    as [c [E [H1 _]]].
  exists c. split; [exact E | exact H1].
Defined.

(* ------------------------------------------------------------------ *)
(** * Further properties of the agents and the report *)

(** ** What [_extract_json] hands to [json.loads] *)

Lemma get_split (s : string) (i : nat) (c : ascii) :
  String.get i s = Some c -> exists a r, s = a ++ String c r /\ String.length a = i.
Proof.
  revert i. induction s as [|x s IH]; intros i H; [discriminate|].
  destruct i as [|i]; simpl in H.
  - injection H as ->. exists EmptyString, s. split; reflexivity.
  - destruct (IH i H) as [a [r [-> Ha]]].
    exists (String x a), r. split; [reflexivity | simpl; now rewrite Ha].
Qed.

Lemma get_app_r (a s : string) (k : nat) :
  String.get (String.length a + k) (a ++ s) = String.get k s.
Proof. induction a as [|x a IH]; simpl; [reflexivity | exact IH]. Qed.

(** X1: whatever the model answered, every agent's [_extract_json] (with
    a dict as its canned record, as all three agents have) returns a text
    that starts with ['{'] and ends with ['}']. *)
Theorem extract_json_braced (o : obj) (text : string) :
  exists body, extract_json (JObj o) text = String "{" (body ++ String "}" EmptyString).
Proof.
  unfold extract_json, py_find, py_rfind. cbv zeta.
  destruct (find_char "{" text) as [i|] eqn:Ei;
    [| eexists; simpl; reflexivity].
  destruct (rfind_char "}" text) as [j|] eqn:Ej;
    [| destruct (Z.ltb_spec (Z.of_nat i) (-1 + 1)); [lia|];
       rewrite andb_false_r; eexists; simpl; reflexivity].
  pose proof (get_find_char _ _ _ Ei) as Gi. pose proof (get_rfind_char _ _ _ Ej) as Gj.
  destruct (Z.ltb_spec (Z.of_nat i) (Z.of_nat j + 1)) as [Hlt|Hge];
    [| rewrite andb_false_r; eexists; simpl; reflexivity].
  assert (Hij : i < j).
  { destruct (Nat.eq_dec i j) as [->|Hne]; [rewrite Gi in Gj; discriminate | lia]. }
  replace (0 <=? Z.of_nat i)%Z with true by (symmetry; apply Z.leb_le; lia). simpl andb.
  destruct (get_split text i "{" Gi) as [a [r [Et Ha]]]. subst text.
  replace j with (String.length a + S (j - i - 1)) in Gj by lia.
  rewrite get_app_r in Gj. simpl in Gj.
  destruct (get_split r (j - i - 1) "}" Gj) as [m [b [Er Hm]]]. subst r.
  exists m. unfold slice.
  replace (Z.to_nat (Z.of_nat i)) with (String.length a) by lia.
  rewrite substring_app_l.
  replace (Z.to_nat (Z.of_nat j + 1 - Z.of_nat i))
    with (String.length (String "{" (m ++ String "}" EmptyString))).
  - replace (String "{" (m ++ String "}" b)) with (String "{" (m ++ String "}" EmptyString) ++ b).
    + apply substring_prefix.
    + simpl. now rewrite string_app_assoc.
  - simpl. rewrite string_length_app. simpl. lia.
Qed.

(** ** The plan returned by [create_plan] *)

Lemma validate_default_plan (problem : string) : validate_plan (default_plan problem) = inr tt.
Proof. reflexivity. Qed.

(** X2: for every environment, [create_plan] returns after one model
    call a plan that passes [_validate_plan]: either the plan decoded from
    the model's answer, or the default plan for the problem. *)
Theorem create_plan_validated (w : World) (problem : string) (t : nat) :
  exists plan, create_plan w problem t = Some (plan, S t)
    /\ validate_plan plan = inr tt
    /\ (plan = default_plan problem
        \/ exists response, generate w (planning_prompt problem) t = Some (response, S t)
                            /\ loads (extract_json plan_parse_failure response) = Some plan).
Proof.
  assert (G : exists response, generate w (planning_prompt problem) t = Some (response, S t))
    by (eexists; reflexivity).
  destruct G as [response G].
  unfold create_plan, bind. rewrite G. unfold ret, plan_of_response.
  destruct (loads (extract_json plan_parse_failure response)) as [plan|] eqn:L.
  - destruct (validate_plan plan) as [msg|[]] eqn:V.
    + exists (default_plan problem).
      split; [reflexivity|]. split; [apply validate_default_plan | now left].
    + exists plan. split; [reflexivity|]. split; [exact V|]. right.
      exists response. split; [reflexivity | exact L].
  - exists (default_plan problem).
    split; [reflexivity|]. split; [apply validate_default_plan | now left].
Qed.

(** ** The recency year of [_optimize_query] *)

Lemma lstrip_app (q r : string) :
  (exists p, lstrip (q ++ r) = p ++ r) \/ lstrip (q ++ r) = lstrip r.
Proof.
  induction q as [|x q IH]; simpl; [now right|].
  destruct (is_space x); [exact IH|]. left. exists (String x q). reflexivity.
Qed.

Lemma string_app_nil_r (s : string) : s ++ "" = s.
Proof. induction s as [|x s IH]; simpl; [reflexivity | now rewrite IH]. Qed.

Lemma rev_string_app (a b : string) : rev_string (a ++ b) = rev_string b ++ rev_string a.
Proof.
  induction a as [|x a IH]; simpl.
  - now rewrite string_app_nil_r.
  - rewrite IH. apply string_app_assoc.
Qed.

Lemma rev_string_involutive (s : string) : rev_string (rev_string s) = s.
Proof.
  induction s as [|x s IH]; simpl; [reflexivity|].
  rewrite rev_string_app, IH. reflexivity.
Qed.

Lemma lower_app (a b : string) : lower (a ++ b) = lower a ++ lower b.
Proof. induction a as [|x a IH]; simpl; [reflexivity | now rewrite IH]. Qed.

Lemma prefix_refl (s : string) : String.prefix s s = true.
Proof.
  induction s as [|x s IH]; simpl; [reflexivity|].
  destruct (ascii_dec x x); [exact IH | congruence].
Qed.

Lemma contains_suffix (needle x : string) : contains needle (x ++ needle) = true.
Proof.
  induction x as [|c x IH]; simpl.
  - destruct needle as [|c n]; [reflexivity|]. simpl.
    destruct (ascii_dec c c); [now rewrite prefix_refl | congruence].
  - rewrite IH. apply orb_true_r.
Qed.

Lemma strip_year (query : string) : exists p, strip (query ++ " 2024") = p ++ "2024".
Proof.
  assert (L : exists p, lstrip (query ++ " 2024") = p ++ "2024").
  { destruct (lstrip_app query " 2024") as [[p E]|E].
    - exists (p ++ " "). rewrite E, string_app_assoc. reflexivity.
    - exists "". rewrite E. reflexivity. }
  destruct L as [p E]. exists p. unfold strip. rewrite E, rev_string_app.
  simpl. rewrite rev_string_involutive. now rewrite !string_app_assoc.
Qed.

Lemma optimize_query_has_year (query : string) :
  contains "2024" (lower (strip (optimize_query query)))
  || contains "2023" (lower (strip (optimize_query query))) = true.
Proof.
  unfold optimize_query. cbv zeta.
  destruct (contains "2024" (lower (strip query))) eqn:E4; simpl; [now rewrite E4|].
  destruct (contains "2023" (lower (strip query))) eqn:E3; simpl; [now rewrite E3, orb_true_r|].
  destruct (strip_year query) as [p ->]. rewrite lower_app. now rewrite contains_suffix.
Qed.

(** X3: [_optimize_query] never appends the year twice: applied to its
    own output it changes nothing. *)
Theorem optimize_query_idempotent (query : string) :
  optimize_query (optimize_query query) = optimize_query query.
Proof.
  pose proof (optimize_query_has_year query) as H.
  unfold optimize_query at 1. cbv zeta.
  destruct (contains "2024" (lower (strip (optimize_query query)))); [reflexivity|].
  simpl in H. now rewrite H.
Qed.

(** ** The word count of the SerpAPI query *)

Definition no_space (s : string) : Prop :=
  Forall (fun c => is_space c = false) (list_ascii_of_string s).

Definition is_word (s : string) : Prop := s <> "" /\ no_space s.

Lemma list_ascii_of_string_app (a b : string) :
  list_ascii_of_string (a ++ b) = (list_ascii_of_string a ++ list_ascii_of_string b)%list.
Proof. induction a as [|x a IH]; simpl; [reflexivity | now rewrite IH]. Qed.

Lemma split_aux_app_word (cur x rest : string) :
  no_space x -> split_aux cur (x ++ rest) = split_aux (cur ++ x) rest.
Proof.
  revert cur. induction x as [|c x IH]; intros cur H; simpl.
  - now rewrite string_app_nil_r.
  - inversion H as [|? ? Hc Hx]; subst. rewrite Hc, IH by exact Hx.
    now rewrite string_app_assoc.
Qed.

Lemma split_aux_words (cur s : string) :
  no_space cur -> Forall is_word (split_aux cur s).
Proof.
  revert cur. induction s as [|c s IH]; intros cur H; simpl.
  - destruct (String.eqb_spec cur "") as [_|Hne]; constructor; [split; assumption | constructor].
  - destruct (is_space c) eqn:Ec.
    + apply Forall_app. split; [|apply IH; constructor].
      destruct (String.eqb_spec cur "") as [_|Hne]; constructor; [split; assumption | constructor].
    + apply IH. unfold no_space. rewrite list_ascii_of_string_app. apply Forall_app.
      split; [exact H | now constructor].
Qed.

Lemma py_split_words (s : string) : Forall is_word (py_split s).
Proof. apply split_aux_words. constructor. Qed.

Lemma py_split_join (l : list string) : Forall is_word l -> py_split (join " " l) = l.
Proof.
  induction l as [|x l IH]; intros H; [reflexivity|].
  inversion H as [|? ? [Hne Hx] Hl]; subst.
  destruct l as [|y l].
  - unfold py_split. simpl join. rewrite <- (string_app_nil_r x) at 1.
    rewrite split_aux_app_word by exact Hx. simpl.
    destruct (String.eqb_spec x "") as [E|_]; [contradiction | reflexivity].
  - unfold py_split. change (join " " (x :: y :: l)) with (x ++ String " " (join " " (y :: l))).
    rewrite split_aux_app_word by exact Hx. simpl.
    destruct (String.eqb_spec x "") as [E|_]; [contradiction|].
    simpl. f_equal. exact (IH Hl).
Qed.

Lemma Forall_firstn {A} (P : A -> Prop) (n : nat) (l : list A) : Forall P l -> Forall P (firstn n l).
Proof.
  revert l. induction n as [|n IH]; intros l H; [constructor|].
  destruct l as [|x l]; [constructor|]. inversion H; subst. simpl. constructor; auto.
Qed.

(** X4: the query [search_web] sends to SerpAPI has at most 15 words: the
    words of the optimized query when there are at most 15 of them, and
    otherwise exactly its first 12 words. *)
Theorem serp_query_words (query : string) :
  py_split (serp_query query)
  = (if 15 <? List.length (py_split (optimize_query query))
     then firstn 12 (py_split (optimize_query query))
     else py_split (optimize_query query))
  /\ List.length (py_split (serp_query query)) <= 15.
Proof.
  unfold serp_query. cbv zeta.
  destruct (Nat.ltb_spec 15 (List.length (py_split (optimize_query query)))) as [Hgt|Hle].
  - rewrite py_split_join by (apply Forall_firstn, py_split_words).
    split; [reflexivity|]. rewrite length_firstn. lia.
  - split; [reflexivity | exact Hle].
Qed.

(** ** The hits of [search_web] *)


(** ** The prompt text of [format_search_results] *)

Lemma format_lines_length (i : nat) (results : list hit) :
  List.length (format_lines i results) = 5 * List.length results.
Proof.
  revert i. induction results as [|r rs IH]; intros i; simpl; [reflexivity|].
  rewrite IH. lia.
Qed.

Lemma format_lines_block (i k : nat) (results : list hit) (h : hit) :
  nth_error results k = Some h ->
  firstn 5 (skipn (5 * k) (format_lines i results))
  = ["RESULT " ++ nat_to_string (i + k) ++ ":"; "Title: " ++ title h;
     "Snippet: " ++ substring 0 300 (snippet h) ++ "..."; "URL: " ++ url h; "---"].
Proof.
  revert i k. induction results as [|r rs IH]; intros i k H; [destruct k; discriminate|].
  destruct k as [|k].
  - injection H as ->. rewrite Nat.add_0_r. reflexivity.
  - simpl in H. replace (5 * S k) with (5 + 5 * k) by lia.
    cbn [format_lines]. rewrite skipn_app.
    change (List.length [_; _; _; _; _]) with 5. replace (5 + 5 * k - 5) with (5 * k) by lia.
    rewrite skipn_all2 by (simpl; lia). rewrite app_nil_l.
    rewrite (IH (S i) k H). now rewrite Nat.add_succ_comm.
Qed.

(** X6: the search results block of the research prompt is the newline
    join of 5 lines per hit: the k-th hit (from 0) gives
    ["RESULT k+1:"], its title, its snippet cut to 300 characters followed
    by ["..."], its URL and ["---"]; no hits give the empty text. *)
Theorem format_search_results_blocks (results : list hit) :
  format_search_results results = join (String "010" EmptyString) (format_lines 1 results)
  /\ List.length (format_lines 1 results) = 5 * List.length results
  /\ (forall k h, nth_error results k = Some h ->
        firstn 5 (skipn (5 * k) (format_lines 1 results))
        = ["RESULT " ++ nat_to_string (S k) ++ ":"; "Title: " ++ title h;
           "Snippet: " ++ substring 0 300 (snippet h) ++ "..."; "URL: " ++ url h; "---"])
  /\ format_search_results [] = "".
Proof.
  split; [reflexivity|]. split; [apply format_lines_length|]. split; [|reflexivity].
  intros k h H. exact (format_lines_block 1 k results h H).
Qed.

(** ** The critic on the researcher's own records *)

Lemma prepare_empty_research (topic : string) :
  prepare_findings_summary (empty_research topic) <> None.
Proof. intros E. vm_compute in E. discriminate E. Qed.

Lemma prepare_basic_research (topic : string) (hits : list hit) :
  prepare_findings_summary (basic_research topic hits) <> None.
Proof.
  intros E. destruct hits as [|h1 [|h2 [|h3 rest]]]; vm_compute in E; discriminate E.
Qed.

Lemma prepare_canned_research (hits : list hit) :
  prepare_findings_summary (set_key "raw_results" (hits_json hits) research_parse_failure_obj) <> None.
Proof. intros E. vm_compute in E. discriminate E. Qed.

(** X7: the critic accepts every record the researcher builds itself:
    the empty research (no hits), the basic research (analysis failed)
    and the canned parse-failure record with its [raw_results]; on each,
    [critique_research] returns after one model call, whatever the
    environment. *)
Theorem critique_accepts_research_fallbacks (w : World) (topic : string) (hits : list hit) (t : nat) :
  (exists c, critique_research w (empty_research topic) t = Some (c, S t))
  /\ (exists c, critique_research w (basic_research topic hits) t = Some (c, S t))
  /\ (exists c, critique_research w (set_key "raw_results" (hits_json hits) research_parse_failure_obj) t
                = Some (c, S t)).
Proof.
  split; [|split].
  - destruct (prepare_findings_summary (empty_research topic)) as [f|] eqn:E;
      [|exfalso; exact (prepare_empty_research topic E)].
    rewrite (critique_research_unfold w _ t f E). eexists. reflexivity.
  - destruct (prepare_findings_summary (basic_research topic hits)) as [f|] eqn:E;
      [|exfalso; exact (prepare_basic_research topic hits E)].
    rewrite (critique_research_unfold w _ t f E). eexists. reflexivity.
  - destruct (prepare_findings_summary (set_key "raw_results" (hits_json hits) research_parse_failure_obj))
      as [f|] eqn:E; [|exfalso; exact (prepare_canned_research hits E)].
    rewrite (critique_research_unfold w _ t f E). eexists. reflexivity.
Qed.

(** ** [analyze] when the web search finds nothing *)

Lemma display_empty_research (topic : string) : display_research (empty_research topic) = Some tt.
Proof. reflexivity. Qed.

Lemma research_loop_no_hits (w : World) (tasks : list Subtask) (t : nat)
  (Hsearch : forall query k, exists k', search_web w query 5 k = Some ([], k')) :
  exists rs t1, research_loop w tasks t = Some (rs, t1)
    /\ rs = map (fun task => mk_research_item (st_id task) (st_task task) (empty_research (st_task task)))
               (filter (fun task => research_agent (st_agent task)) tasks).
Proof.
  revert t. induction tasks as [|task rest IH]; intros t.
  - exists [], t. split; reflexivity.
  - cbn [research_loop filter]. destruct (research_agent (st_agent task)); [|apply IH].
    destruct (Hsearch (research_query (st_task task) None) t) as [t1 H].
    destruct (IH t1) as [rs [t2 [Ers ->]]].
    eexists; exists t2. split; [|reflexivity].
    cbv [bind lift_opt ret]. rewrite (research_topic_unfold w (st_task task) None t [] t1 H).
    cbv beta iota. rewrite display_empty_research, Ers. reflexivity.
Qed.

Lemma critique_loop_raise (w : World) (rs : list ResearchItem) (t : nat)
  (Hprep : Forall (fun r => prepare_findings_summary (ri_research r) <> None) rs) :
  critique_loop w rs t = None ->
  exists r k c k', In r rs /\ critique_research w (ri_research r) k = Some (c, k')
                   /\ display_critique c = None.
Proof.
  revert t. induction Hprep as [|r rs Hr Hrs IH]; intros t H; [discriminate H|].
  destruct (prepare_findings_summary (ri_research r)) as [f|] eqn:Ef; [|congruence].
  pose proof (critique_research_unfold w (ri_research r) t f Ef) as E.
  cbn [critique_loop] in H. cbv [bind lift_opt ret] in H. rewrite E in H. cbv beta iota in H.
  match type of E with _ = Some (?c, _) => destruct (display_critique c) as [[]|] eqn:Ed end.
  - destruct (critique_loop w rs (S t)) as [[cs t']|] eqn:Ec; [discriminate H|].
    destruct (IH (S t) Ec) as [r' [k [c [k' [Hin [Ecr Hd]]]]]].
    exists r', k, c, k'. split; [right; exact Hin | split; [exact Ecr | exact Hd]].
  - eexists; eexists; eexists; eexists. split; [left; reflexivity | split; [exact E | exact Ed]].
Qed.

(** X8: when every web search comes back empty (no SerpAPI key and
    DuckDuckGo failing or finding nothing, for instance), step 2 of
    [analyze] never raises: each research subtask gets the empty research
    record for its task (which [display_research] accepts), with its task
    id; and step 3 can then raise only in [display_critique]: the critic
    itself returns a critique for each of these records. *)
Theorem analyze_steps_without_hits (w : World) (tasks : list Subtask) (t : nat)
  (Hsearch : forall query k, exists k', search_web w query 5 k = Some ([], k')) :
  exists rs t1, research_loop w tasks t = Some (rs, t1)
    /\ map ri_research rs
       = map (fun task => empty_research (st_task task))
             (filter (fun task => research_agent (st_agent task)) tasks)
    /\ map ri_task_id rs = map st_id (filter (fun task => research_agent (st_agent task)) tasks)
    /\ (critique_loop w rs t1 = None ->
        exists r k c k', In r rs /\ critique_research w (ri_research r) k = Some (c, k')
                         /\ display_critique c = None).
Proof.
  destruct (research_loop_no_hits w tasks t Hsearch) as [rs [t1 [Ers Hrs]]].
  assert (Hprep : Forall (fun r => prepare_findings_summary (ri_research r) <> None) rs).
  { rewrite Hrs. apply Forall_map, Forall_forall. intros task _. apply prepare_empty_research. }
  exists rs, t1. split; [exact Ers|].
  split; [|split; [|exact (critique_loop_raise w rs t1 Hprep)]]; rewrite Hrs, map_map; reflexivity.
Qed.

Lemma analyze_steps_without_hits_witness :
  exists rs t1, research_loop offline_world default_subtasks 0 = Some (rs, t1)
    /\ map ri_research rs
       = map (fun task => empty_research (st_task task))
             (filter (fun task => research_agent (st_agent task)) default_subtasks).
Proof.
  destruct (analyze_steps_without_hits offline_world default_subtasks 0
              (fun query k => ex_intro _ (S k) eq_refl)) as [rs [t1 [E [H _]]]].
  exists rs, t1. split; [exact E | exact H].
Defined.

(** ** Where [_prepare_findings_summary] raises *)

Lemma omap_None_In {A B} (f : A -> option B) (l : list A) (x : A) :
  In x l -> f x = None -> omap f l = None.
Proof.
  induction l as [|y l IH]; intros Hin Hx; [destruct Hin|].
  destruct Hin as [->|Hin]; simpl.
  - now rewrite Hx.
  - destruct (f y); simpl; [now rewrite IH | reflexivity].
Qed.

(** X9: if the research's [key_findings] is a list holding an entry with
    no ["category"] (a dict without that key, or a non-dict),
    [_prepare_findings_summary] raises, and with it [critique_research]:
    the exception is raised before its [try]. *)
Theorem prepare_raises_without_category (w : World) (research : obj) (findings : list json)
  (finding : json) (t : nat)
  (Hkf : lookup "key_findings" research = Some (JArr findings))
  (Hin : In finding findings)
  (Hcat : py_getitem finding "category" = None) :
  prepare_findings_summary research = None /\ critique_research w research t = None.
Proof.
  assert (P : prepare_findings_summary research = None).
  { unfold prepare_findings_summary.
    replace (get_default "key_findings" JNull research) with (JArr findings)
      by (unfold get_default; now rewrite Hkf).
    replace (py_truthy (JArr findings)) with true
      by (destruct findings; [destruct Hin | reflexivity]).
    cbn [py_iter]. rewrite obind_Some.
    erewrite omap_None_In; [reflexivity | exact Hin |].
    cbv beta. now rewrite Hcat. }
  split; [exact P|]. unfold critique_research, bind, lift_opt. now rewrite P.
Qed.

Lemma prepare_raises_without_category_witness :
  critique_research offline_world research_with_bare_finding 0 = None.
Proof.
  exact (proj2 (prepare_raises_without_category offline_world research_with_bare_finding
                  [JObj []] (JObj []) 0 eq_refl (or_introl eq_refl) eq_refl)).
Defined.

(** ** Next steps from the critic's default records *)

Definition default_improvement : obj :=
  [("area", JStr "Critique System");
   ("suggestion", JStr "Fix critique generation or use manual review");
   ("priority", JStr "high")].

Lemma concat_map_const {A B} (x : B) (l : list A) :
  concat (map (fun _ => [x]) l) = repeat x (List.length l).
Proof. induction l as [|a l IH]; simpl; [reflexivity | now rewrite IH]. Qed.

(** X10: when every critique is the critic's default record (its model
    answer could not be used), the next steps are that record's single
    high-priority suggestion, once per critique, capped at 5; with no
    critique at all they are the 4-item default list. *)
Theorem next_steps_of_default_critiques (critiques : list CritiqueItem)
  (Hdef : Forall (fun ci => exists research, ci_critique ci = default_critique research) critiques) :
  generate_next_steps critiques
  = Some (firstn 5 (match critiques with
                    | [] => default_next_steps
                    | _ => repeat "High priority: Fix critique generation or use manual review"
                                  (List.length critiques)
                    end)).
Proof.
  unfold generate_next_steps.
  rewrite (fold_next_steps critiques (fun _ => [default_improvement]) []).
  - rewrite app_nil_l, obind_Some.
    change (fun ci : CritiqueItem => high_of_first_two [default_improvement])
      with (fun _ : CritiqueItem => ["High priority: Fix critique generation or use manual review"]).
    rewrite concat_map_const. destruct critiques; reflexivity.
  - eapply Forall_impl; [|exact Hdef]. intros ci [research ->]. reflexivity.
Qed.

Lemma next_steps_of_default_critiques_witness :
  generate_next_steps [mk_critique_item (JNum "1") (default_critique []);
                       mk_critique_item (JNum "2") (default_critique (empty_research "x"))]
  = Some ["High priority: Fix critique generation or use manual review";
          "High priority: Fix critique generation or use manual review"].
Proof.
  refine (next_steps_of_default_critiques _ _).
  repeat constructor; eexists; reflexivity.
Defined.

(** ** Key insights of the final report *)

Lemma fold_obind_None {A B} (step : A -> B -> option A) (l : list B) :
  fold_left (fun acc x => a <-? acc;; step a x) l None = None.
Proof. induction l as [|x l IH]; simpl; [reflexivity | exact IH]. Qed.

Definition insights_step (ins : list string) (item : ResearchItem) : option (list string) :=
  let research := ri_research item in
  if has_key "summary" research then
    sl <-? py_slice (get_default "summary" JNull research) 150;;
    Some (ins ++ [insight_line item sl])%list
  else Some ins.

Lemma extract_key_insights_fold (items : list ResearchItem) :
  extract_key_insights items
  = (insights <-? fold_left (fun acc item => ins <-? acc;; insights_step ins item) items (Some []);;
     Some (firstn 5 insights)).
Proof. reflexivity. Qed.

Lemma fold_insights (items : list ResearchItem) (sums : ResearchItem -> string) (acc : list string) :
  Forall (fun it => has_key "summary" (ri_research it) = true ->
                    lookup "summary" (ri_research it) = Some (JStr (sums it))) items ->
  fold_left (fun acc item => ins <-? acc;; insights_step ins item) items (Some acc)
  = Some (app acc (map (fun it => "Task " ++ py_str (ri_task_id it) ++ ": "
                                  ++ substring 0 150 (sums it) ++ "...")
                       (filter (fun it => has_key "summary" (ri_research it)) items))).
Proof.
  revert acc. induction items as [|it items IH]; intros acc H.
  - simpl. now rewrite app_nil_r.
  - inversion H as [|? ? Hit Hs]; subst. cbn [fold_left]. rewrite obind_Some.
    cbn [filter]. destruct (has_key "summary" (ri_research it)) eqn:Eh.
    + assert (Step : insights_step acc it
                     = Some (app acc ["Task " ++ py_str (ri_task_id it) ++ ": "
                                      ++ substring 0 150 (sums it) ++ "..."]))
        by (unfold insights_step; cbv zeta; rewrite Eh; unfold get_default;
            rewrite (Hit eq_refl); reflexivity).
      rewrite Step, IH by exact Hs. cbn [map]. now rewrite <- app_assoc.
    + assert (Step : insights_step acc it = Some acc)
        by (unfold insights_step; cbv zeta; now rewrite Eh).
      rewrite Step. apply IH. exact Hs.
Qed.

(** X11: when every research summary present is a string, the key
    insights are, for the research records that have a summary, in order,
    ["Task <id>: "] followed by the first 150 characters of the summary
    and ["..."], keeping the first 5; records without a summary are
    skipped. *)
Theorem key_insights_lines (items : list ResearchItem) (sums : ResearchItem -> string)
  (Hs : Forall (fun it => has_key "summary" (ri_research it) = true ->
                          lookup "summary" (ri_research it) = Some (JStr (sums it))) items) :
  extract_key_insights items
  = Some (firstn 5 (map (fun it => "Task " ++ py_str (ri_task_id it) ++ ": "
                                   ++ substring 0 150 (sums it) ++ "...")
                        (filter (fun it => has_key "summary" (ri_research it)) items))).
Proof.
  rewrite extract_key_insights_fold.
  now rewrite (fold_insights items sums [] Hs).
Qed.

Lemma key_insights_lines_witness :
  extract_key_insights [mk_research_item (JNum "1") "T" (empty_research "T");
                        mk_research_item (JNum "2") "U" []]
  = Some ["Task 1: No search results found..."].
Proof.
  refine (key_insights_lines _ (fun _ => "No search results found") _).
  repeat constructor; intros H; first [reflexivity | discriminate H].
Defined.

Lemma fold_insights_raise (pre : list ResearchItem) (item : ResearchItem) (post : list ResearchItem)
  (acc : option (list string)) :
  has_key "summary" (ri_research item) = true ->
  py_slice (get_default "summary" JNull (ri_research item)) 150 = None ->
  fold_left (fun acc item => ins <-? acc;; insights_step ins item) (pre ++ item :: post)%list acc = None.
Proof.
  intros Hk Hs. rewrite fold_left_app. simpl.
  destruct (fold_left _ pre acc) as [ins|]; simpl; [|apply fold_obind_None].
  unfold insights_step. cbv zeta. rewrite Hk, Hs. apply fold_obind_None.
Qed.

(** X12: a research record whose summary is present but is neither a
    string nor a list (a number, a boolean, null or a dict) makes
    [_extract_key_insights] raise, and with it the final report. *)
Theorem key_insights_raise_on_unsliceable_summary (items : list ResearchItem) (item : ResearchItem)
  (v : json)
  (Hin : In item items)
  (Hsum : lookup "summary" (ri_research item) = Some v)
  (Hv : py_slice v 150 = None) :
  extract_key_insights items = None.
Proof.
  apply in_split in Hin as [pre [post ->]].
  rewrite extract_key_insights_fold.
  rewrite fold_insights_raise; [reflexivity | |].
  - unfold has_key. now rewrite Hsum.
  - unfold get_default. now rewrite Hsum.
Qed.

Lemma key_insights_raise_on_unsliceable_summary_witness :
  extract_key_insights [mk_research_item (JNum "1") "T" [("summary", JNull)]] = None.
Proof.
  refine (key_insights_raise_on_unsliceable_summary [mk_research_item (JNum "1") "T" [("summary", JNull)]]
            (mk_research_item (JNum "1") "T" [("summary", JNull)]) JNull _ eq_refl eq_refl).
  now left.
Defined.

(** ** The combined research of the final report *)

(** What [list.extend(research[k])] adds, when [k] is present. *)
Definition iter_present (k : string) (research : obj) : option (list json) :=
  if has_key k research then py_iter (get_default k JNull research) else Some [].

Definition combine_step (p : list json * list json) (item : ResearchItem)
  : option (list json * list json) :=
  let research := ri_research item in
  kf <-? (if has_key "key_findings" research then
            it <-? py_iter (get_default "key_findings" JNull research);;
            Some (fst p ++ it)%list
          else Some (fst p));;
  src <-? (if has_key "sources" research then
             it <-? py_iter (get_default "sources" JNull research);;
             Some (snd p ++ it)%list
           else Some (snd p));;
  Some (kf, src).

Lemma combine_research_fold (problem : string) (items : list ResearchItem) :
  combine_research problem items
  = (acc <-? fold_left (fun acc item => p <-? acc;; combine_step p item) items (Some ([], []));;
     Some [("topic", JStr ("Comprehensive analysis: " ++ problem));
           ("summary", JStr ("Analysis combining " ++ nat_to_string (List.length items)
                             ++ " research tasks"));
           ("key_findings", JArr (fst acc)); ("sources", JArr (snd acc))]).
Proof. reflexivity. Qed.

Lemma combine_step_eq (p : list json * list json) (item : ResearchItem) :
  combine_step p item
  = match iter_present "key_findings" (ri_research item), iter_present "sources" (ri_research item) with
    | Some a, Some b => Some (app (fst p) a, app (snd p) b)
    | _, _ => None
    end.
Proof.
  unfold combine_step, iter_present. cbv zeta.
  destruct (has_key "key_findings" (ri_research item));
    [destruct (py_iter (get_default "key_findings" JNull (ri_research item))) as [a|] |];
    simpl; try reflexivity;
  (destruct (has_key "sources" (ri_research item));
    [destruct (py_iter (get_default "sources" JNull (ri_research item))) as [b|] |];
    simpl; rewrite ?app_nil_r; reflexivity).
Qed.

Lemma fold_combine (items : list ResearchItem) (a b : list json) :
  fold_left (fun acc item => p <-? acc;; combine_step p item) items (Some (a, b))
  = match omap (fun it => iter_present "key_findings" (ri_research it)) items,
          omap (fun it => iter_present "sources" (ri_research it)) items with
    | Some kfs, Some srcs => Some (app a (concat kfs), app b (concat srcs))
    | _, _ => None
    end.
Proof.
  revert a b. induction items as [|it items IH]; intros a b.
  - simpl. now rewrite !app_nil_r.
  - cbn [fold_left omap]. rewrite obind_Some, combine_step_eq. cbn [fst snd].
    destruct (iter_present "key_findings" (ri_research it)) as [x|];
      [destruct (iter_present "sources" (ri_research it)) as [y|] |]; simpl.
    + rewrite IH.
      destruct (omap (fun it => iter_present "key_findings" (ri_research it)) items);
        destruct (omap (fun it => iter_present "sources" (ri_research it)) items);
        simpl; try reflexivity.
      now rewrite !app_assoc.
    + rewrite fold_obind_None.
      destruct (omap (fun it => iter_present "key_findings" (ri_research it)) items); reflexivity.
    + apply fold_obind_None.
Qed.

(** X13: the combined research that [_generate_final_report] gives the
    critic holds, in item order, everything [list.extend] takes from each
    research's [key_findings] and [sources] when present (the entries of a
    list, but the characters of a string and the keys of a dict); it
    raises exactly when one of these values is a number, a boolean or
    null. Its summary counts all research items. *)
Theorem combine_research_concat (problem : string) (items : list ResearchItem) :
  combine_research problem items
  = match omap (fun it => iter_present "key_findings" (ri_research it)) items,
          omap (fun it => iter_present "sources" (ri_research it)) items with
    | Some kfs, Some srcs =>
        Some [("topic", JStr ("Comprehensive analysis: " ++ problem));
              ("summary", JStr ("Analysis combining " ++ nat_to_string (List.length items)
                                ++ " research tasks"));
              ("key_findings", JArr (concat kfs)); ("sources", JArr (concat srcs))]
    | _, _ => None
    end.
Proof.
  rewrite combine_research_fold, fold_combine.
  destruct (omap (fun it => iter_present "key_findings" (ri_research it)) items);
    destruct (omap (fun it => iter_present "sources" (ri_research it)) items); reflexivity.
Qed.

(** ** The file names of [_save_analysis] *)

Lemma In_replace_char (old : ascii) (new s : string) (c : ascii) :
  In c (list_ascii_of_string (replace_char old new s))
  <-> (In c (list_ascii_of_string s) /\ c <> old)
      \/ (In c (list_ascii_of_string new) /\ In old (list_ascii_of_string s)).
Proof.
  induction s as [|x s IH]; simpl; [tauto|].
  rewrite list_ascii_of_string_app, in_app_iff, IH.
  destruct (Ascii.eqb_spec x old) as [->|Hne]; simpl; split; intros H; intuition congruence.
Qed.

Lemma length_replace_char_nil (old : ascii) (s : string) :
  String.length (replace_char old "" s) <= String.length s.
Proof.
  induction s as [|x s IH]; simpl; [lia|].
  destruct (Ascii.eqb x old); simpl; lia.
Qed.

Lemma length_replace_char_one (old d : ascii) (s : string) :
  String.length (replace_char old (String d EmptyString) s) = String.length s.
Proof.
  induction s as [|x s IH]; simpl; [reflexivity|].
  destruct (Ascii.eqb x old); simpl; lia.
Qed.

Lemma length_substring_0 (n : nat) (s : string) : String.length (substring 0 n s) <= n.
Proof.
  revert n. induction s as [|x s IH]; intros n; destruct n as [|n]; simpl; try lia.
  specialize (IH n). lia.
Qed.

(** X14: the problem part of every file name [_save_analysis] writes is
    at most 50 characters long and contains no space, ['?'] or ['.']; its
    characters are exactly those of the problem's first 50 characters
    other than these three, plus ['_'] where there was a space. In
    particular a ['/'] of the problem stays in the file name. *)
Theorem safe_problem_chars (problem : string) :
  String.length (safe_problem problem) <= 50
  /\ forall c, In c (list_ascii_of_string (safe_problem problem))
       <-> (In c (list_ascii_of_string (substring 0 50 problem))
            /\ c <> " "%char /\ c <> "?"%char /\ c <> "."%char)
           \/ (c = "_"%char /\ In " "%char (list_ascii_of_string (substring 0 50 problem))).
Proof.
  split.
  - unfold safe_problem.
    pose proof (length_replace_char_nil "." (replace_char "?" "" (replace_char " " "_" (substring 0 50 problem)))).
    pose proof (length_replace_char_nil "?" (replace_char " " "_" (substring 0 50 problem))).
    pose proof (length_replace_char_one " " "_" (substring 0 50 problem)).
    pose proof (length_substring_0 50 problem). lia.
  - intros c. unfold safe_problem. rewrite !In_replace_char. simpl. intuition congruence.
Qed.

(** ** The metadata of a critique *)

Lemma lookup_set_key_other (k k' : string) (v : json) (o : obj) :
  k <> k' -> lookup k (set_key k' v o) = lookup k o.
Proof.
  intros Hne. induction o as [|[k0 v0] o IH]; simpl.
  - destruct (String.eqb_spec k k'); [contradiction | reflexivity].
  - destruct (String.eqb_spec k' k0) as [->|Hne0]; simpl.
    + destruct (String.eqb_spec k k0); [contradiction | reflexivity].
    + destruct (String.eqb k k0); [reflexivity | exact IH].
Qed.

(** X15: whenever [critique_research] returns, its ["research_topic"] and
    ["original_research_summary"] are the research's [topic] and [summary]
    (or [""]), whatever the model answered: values of these keys in the
    model's own critique are overwritten. *)
Theorem critique_metadata_from_research (w : World) (research : obj) (t : nat)
  (Hprep : prepare_findings_summary research <> None) :
  exists c, critique_research w research t = Some (c, S t)
    /\ lookup "research_topic" c = Some (get_default "topic" (JStr "") research)
    /\ lookup "original_research_summary" c = Some (get_default "summary" (JStr "") research).
Proof.
  destruct (prepare_findings_summary research) as [f|] eqn:Ef; [|congruence].
  rewrite (critique_research_unfold w research t f Ef).
  eexists. split; [reflexivity|].
  unfold critique_of_response.
  match goal with |- context [loads ?x] => destruct (loads x) as [[| | | | |o]|] end;
    try (split; reflexivity).
  rewrite lookup_set_key_other by discriminate. split; apply lookup_set_key_same.
Qed.

Lemma critique_metadata_from_research_witness :
  exists c, critique_research offline_world (empty_research "x") 0 = Some (c, 1)
    /\ lookup "research_topic" c = Some (JStr "x").
Proof.
  assert (H : prepare_findings_summary (empty_research "x") <> None) by apply prepare_empty_research.
  destruct (critique_metadata_from_research offline_world (empty_research "x") 0 H) as [c [E [Ht _]]].
  exists c. split; [exact E | exact Ht].
Defined.

(** ** Where [_generate_next_steps] raises *)

Lemma fold_raise {A B} (step : A -> B -> option A) (pre : list B) (x : B) (post : list B)
  (acc : option A) :
  (forall a, step a x = None) ->
  fold_left (fun acc y => a <-? acc;; step a y) (pre ++ x :: post)%list acc = None.
Proof.
  intros Hx. rewrite fold_left_app. simpl.
  destruct (fold_left _ pre acc) as [a|]; simpl; [rewrite Hx|]; apply fold_obind_None.
Qed.

(** X16: a critique whose ["improvements"] is present but neither a list
    nor a string (a dict, a number, a boolean or null) makes
    [_generate_next_steps] raise, and with it the final report. *)
Theorem next_steps_raise_on_unsliceable_improvements (critiques : list CritiqueItem)
  (ci : CritiqueItem) (v : json)
  (Hin : In ci critiques)
  (Hv : lookup "improvements" (ci_critique ci) = Some v)
  (Hs : py_slice v 2 = None) :
  generate_next_steps critiques = None.
Proof.
  apply in_split in Hin as [pre [post ->]].
  unfold generate_next_steps.
  rewrite (fold_raise (fun steps item => more <-? next_steps_of (ci_critique item);;
                                         Some (steps ++ more)%list) pre ci post (Some [])).
  - reflexivity.
  - intros a. unfold next_steps_of, get_default. rewrite Hv, Hs. reflexivity.
Qed.

Lemma next_steps_raise_on_unsliceable_improvements_witness :
  generate_next_steps [mk_critique_item (JNum "1") [("improvements", JObj [])]] = None.
Proof.
  refine (next_steps_raise_on_unsliceable_improvements _
            (mk_critique_item (JNum "1") [("improvements", JObj [])]) (JObj []) _ eq_refl eq_refl).
  now left.
Defined.

(** ** Recommendations from the critic's default records *)

Lemma filter_none {A} (p : A -> bool) (l : list A) :
  Forall (fun x => p x = false) l -> filter p l = [].
Proof. induction 1 as [|x l Hx _ IH]; simpl; [reflexivity | now rewrite Hx]. Qed.

Lemma filter_all {A} (p : A -> bool) (l : list A) :
  Forall (fun x => p x = true) l -> filter p l = l.
Proof. induction 1 as [|x l Hx _ IH]; simpl; [reflexivity | now rewrite Hx, IH]. Qed.

(** X17: when no subtask mentions "recommend" or "suggest" and every
    critique is the critic's default record, the recommendations are
    ["Task <id>: Use with caution and manual verification"] for the first
    5 critiques (so this is the top recommendation), and the 5-item
    default list when there is no critique. *)
Theorem recommendations_of_default_critiques (subtasks : list Subtask) (critiques : list CritiqueItem)
  (Hno : Forall (fun task => mentions_recommend (st_task task) = false) subtasks)
  (Hdef : Forall (fun ci => exists research, ci_critique ci = default_critique research) critiques) :
  generate_recommendations subtasks critiques
  = firstn 5 (match critiques with
              | [] => default_recommendations
              | _ => map (fun ci => "Task " ++ py_str (ci_task_id ci)
                                    ++ ": Use with caution and manual verification") critiques
              end).
Proof.
  unfold generate_recommendations.
  rewrite (fold_left_append_filter (fun task => mentions_recommend (st_task task)) consider_line).
  rewrite (fold_left_append_filter has_recommendation critique_recommendation_line).
  rewrite (filter_none _ _ Hno), app_nil_l.
  rewrite filter_all
    by (eapply Forall_impl; [|exact Hdef]; intros ci [r E]; unfold has_recommendation; now rewrite E).
  replace (map critique_recommendation_line critiques)
    with (map (fun ci => "Task " ++ py_str (ci_task_id ci)
                         ++ ": Use with caution and manual verification") critiques).
  - destruct critiques; reflexivity.
  - apply map_ext_in. intros ci Hin. rewrite Forall_forall in Hdef.
    destruct (Hdef ci Hin) as [r E]. unfold critique_recommendation_line. rewrite E. reflexivity.
Qed.

Lemma recommendations_of_default_critiques_witness :
  generate_recommendations [mk_subtask (JNum "1") "Research the market" "researcher"]
                           [mk_critique_item (JNum "1") (default_critique [])]
  = ["Task 1: Use with caution and manual verification"].
Proof.
  refine (recommendations_of_default_critiques _ _ _ _); repeat constructor.
  eexists; reflexivity.
Defined.

(** ** Where the display methods of [analyze] raise *)

(** Follow a chain of [<-?] steps: each step either raises, ending the
    chain, or passes its value on. *)
Ltac peel_raises :=
  repeat (cbn [obind]; try reflexivity;
          match goal with |- obind ?o _ = None => destruct o end).

(** X18: [display_research] accepts every record the researcher builds
    itself: the empty research, the basic research (for any hits) and the
    canned parse-failure record with its [raw_results]. *)
Theorem display_research_accepts_own_records (topic : string) (hits : list hit) :
  display_research (empty_research topic) = Some tt
  /\ display_research (basic_research topic hits) = Some tt
  /\ display_research (set_key "raw_results" (hits_json hits) research_parse_failure_obj) = Some tt.
Proof.
  split; [reflexivity|]. split.
  - destruct hits as [|h1 [|h2 [|h3 rest]]]; vm_compute; reflexivity.
  - vm_compute. reflexivity.
Qed.

(** X19: [display_research] raises ([KeyError]) on any record missing one
    of the keys topic, summary, key_findings, statistics, sources, gaps
    and next_steps, such as the record [research_topic] returns when the
    model answers [{}]. *)
Theorem display_research_requires_keys (research : obj) (k : string)
  (Hk : In k ["topic"; "summary"; "key_findings"; "statistics"; "sources"; "gaps"; "next_steps"])
  (Hnone : lookup k research = None) :
  display_research research = None.
Proof.
  unfold display_research.
  repeat (destruct Hk as [<-|Hk]; [rewrite Hnone; peel_raises|]).
  destruct Hk.
Qed.

Lemma display_research_requires_keys_witness :
  display_research (set_key "raw_results" (hits_json [sample_hit]) []) = None.
Proof.
  apply (display_research_requires_keys _ "topic"); [left; reflexivity | reflexivity].
Defined.

(** X20: [display_critique] accepts the critic's own records: the
    default critique of any research, and the canned parse-failure
    record with any research metadata set by [critique_research]. *)
Theorem display_critique_accepts_own_records (research : obj) (topic summary : json) :
  display_critique (default_critique research) = Some tt
  /\ display_critique (set_key "original_research_summary" summary
                         (set_key "research_topic" topic critic_parse_failure_obj)) = Some tt.
Proof. split; vm_compute; reflexivity. Qed.

(** X21: a critique whose ["confidence_level"] is present but is not a
    string (a number, a boolean, null, a list or a dict) makes
    [display_critique] raise, as [.upper()] is called on it. *)
Theorem display_critique_raises_on_confidence (critique : obj) (v : json)
  (Hc : lookup "confidence_level" critique = Some v)
  (Hv : forall s, v <> JStr s) :
  display_critique critique = None.
Proof.
  assert (Hu : py_upper (get_default "confidence_level" (JStr "unknown") critique) = None).
  { unfold get_default. rewrite Hc. destruct v; try reflexivity. exfalso. eapply Hv. reflexivity. }
  unfold display_critique. cbv zeta. rewrite Hu. peel_raises.
Qed.

Lemma display_critique_raises_on_confidence_witness :
  display_critique [("confidence_level", JNum "1")] = None.
Proof.
  apply (display_critique_raises_on_confidence _ (JNum "1")); [reflexivity | intros s H; discriminate H].
Defined.
